(** * Memory Generator backend (server.js): profile store, AR session log
      and image request forwarder

    A shallow embedding of the request handlers of [server.js].  Every
    handler is a function from its inputs (the request, the readings of the
    clock and of the random source it takes, the outcome of the I/O it
    performs) and the state it touches to a response and the new state.

    - the module-level object [lovedOnes] is a finite map from own property
      names to profiles, read through [Js.get], which also sees the
      properties every object literal inherits from [Object.prototype];
    - the uploads directory is the set of the relative paths of its files;
    - the AR sessions file is its parsed content, or unreadable;
    - outbound calls to the image service are recorded in a trace. *)

From Stdlib Require Import ZArith Lia Ascii String.
From stdpp Require Import base strings list gmap pretty.

#[local] Set Warnings "-clear-no-such-hyp".

(** ** JavaScript values as the handlers see them *)

Module Js.

(** Request fields are optional strings: a missing field is [undefined].
    [truthy v] is the test [if (v)]: [undefined] and the empty string are
    falsy, as in [!name] or [!sessionData.sessionId]. *)
Definition truthy (v : option string) : bool :=
  match v with
  | Some s => negb (String.eqb s "")
  | None => false
  end.

(** The property names an object literal [{}] inherits from
    [Object.prototype]; all of them hold functions, except [__proto__],
    an accessor that yields the prototype object itself. *)
Definition object_prototype_keys : list string :=
  [ "constructor"; "__proto__"; "hasOwnProperty"; "isPrototypeOf";
    "propertyIsEnumerable"; "toLocaleString"; "toString"; "valueOf";
    "__defineGetter__"; "__defineSetter__"; "__lookupGetter__";
    "__lookupSetter__" ].

(** The result of a property read [obj[key]] on an object used as a map
    whose own properties all hold values of type [A]. *)
Inductive property (A : Type) : Type :=
| Own (v : A)              (* an own property *)
| Inherited (key : string) (* found on Object.prototype: a truthy builtin *)
| Undefined.               (* not found: undefined *)
Arguments Own {A} v.
Arguments Inherited {A} key.
Arguments Undefined {A}.

(** [obj[key]]: own properties first, then the prototype. *)
Definition get {A} (obj : gmap string A) (key : string) : property A :=
  match obj !! key with
  | Some v => Own v
  | None =>
      if bool_decide (key ∈ object_prototype_keys) then Inherited key
      else Undefined
  end.

(** [lovedOne.name] on an inherited builtin: the name of the function;
    the accessor [__proto__] yields an object without a [name]. *)
Definition builtin_name (key : string) : option string :=
  if String.eqb key "constructor" then Some "Object"
  else if String.eqb key "__proto__" then None
  else Some key.

(** [v || fallback] on an optional string: the fallback replaces
    [undefined] and the empty string alike. *)
Definition or_else (v : option string) (fallback : string) : string :=
  match v with
  | Some s => if String.eqb s "" then fallback else s
  | None => fallback
  end.

(** A value inside a template literal: [undefined] prints its name. *)
Definition print (v : option string) : string := default "undefined" v.

(** The first character of [s] is a decimal digit, as in every printed
    number ([Date.now().toString()]). *)
Definition starts_with_digit (s : string) : Prop :=
  ∃ d rest, s = String (pretty_N_char d) rest.

(** [Array.prototype.slice(-n)]: the last [n] elements, all of them when
    there are fewer. *)
Definition slice_last {A} (n : nat) (l : list A) : list A :=
  drop (length l - n) l.

End Js.

(** ** Data model *)

(** A loved-one profile, as stored in [lovedOnes]. *)
Record Profile := {
  id : string;
  name : string;
  description : string;
  relationship : string;
  photos : list string;
  createdAt : string
}.

(** The body of [POST /api/ar/session]: a JSON object, of which the handler
    looks at [sessionId] only. *)
Record SessionData := {
  sessionId : option string;
  payload : list (string * string)
}.

(** A stored session: [{...sessionData, savedAt}]. *)
Record SessionRecord := {
  data : SessionData;
  savedAt : string
}.

(** JSON bodies of the responses, one constructor per shape. *)
Inductive Body :=
| ErrorBody (error : string)                       (* { error } *)
| LovedOneBody (lovedOne : Profile)                (* { success, lovedOne } *)
| LovedOneInherited (key : string)                 (* { success } and a builtin *)
| DeletedBody                                      (* { success, message } *)
| SessionSaved (totalSessions : nat)               (* { success, message, totalSessions } *)
| SessionList (sessions : list SessionRecord) (totalSessions : nat)
| SessionsOther (sessions : string)                (* { success, sessions, totalSessions: sessions.length } *)
| ClearedBody                                      (* { success, message } *)
| ImageBody (imageUrl revisedPrompt : string) (lovedOneName : option string)
| UncaughtBody (message : string).                 (* Express's default error page *)

Record Response := { status : nat; body : Body }.

Definition respond (code : nat) (b : Body) : Response :=
  {| status := code; body := b |}.

(** An exception that leaves a handler without a [try] reaches Express's
    default error handler, which answers 500. *)
Definition uncaught (message : string) : Response :=
  respond 500 (UncaughtBody message).

(** ** AR session log *)

Module ArLog.

(** Content of [ar-sessions/sessions.json].  [NotArray] is a document whose
    [sessions] is truthy and is no array (a non-empty string, a non-zero
    number, [true], an object), given by the JSON text of that value; the
    handlers never write one. *)
Inductive Document :=
| Unreadable                          (* missing, or not JSON *)
| NoSessions                          (* JSON whose [sessions] is falsy *)
| Sessions (l : list SessionRecord)   (* { sessions: [...] } *)
| NotArray (json : string).           (* { sessions: <truthy, no array> } *)

(** What [readARSessions] returns: an array of records, or the value found
    under [sessions] when it is no array. *)
Inductive Read :=
| Records (l : list SessionRecord)
| Other (json : string).

(** What [fs.writeFileSync] did. *)
Inductive WriteOutcome :=
| Written            (* the document was replaced *)
| FailedUntouched    (* it threw before touching the file *)
| FailedTruncated.   (* it threw after truncating the file *)

(** Outcome of the I/O of one request. *)
Record Io := {
  read_ok : bool;      (* [fs.readFileSync] returns *)
  write : WriteOutcome
}.

Definition healthy : Io := {| read_ok := true; write := Written |}.

(** The document the startup code writes when none exists. *)
Definition initial : Document := Sessions [].

Definition readARSessions (io : Io) (file : Document) : Read :=
  if read_ok io then
    match file with
    | Sessions l => Records l
    | NotArray json => Other json
    | NoSessions => Records []     (* [.sessions || []] *)
    | Unreadable => Records []     (* JSON.parse throws: caught *)
    end
  else Records [].                 (* readFileSync throws: caught *)

Definition writeARSessions (io : Io) (sessions : list SessionRecord)
    (file : Document) : bool * Document :=
  match write io with
  | Written => (true, Sessions sessions)
  | FailedUntouched => (false, file)
  | FailedTruncated => (false, Unreadable)
  end.

(** [app.post('/api/ar/session')]; [now] is [new Date().toISOString()].
    On a value that is no array, [sessions.push] is not a function: the
    TypeError reaches the handler's own [catch]. *)
Definition post_session (io : Io) (now : string) (req : option SessionData)
    (file : Document) : Response * Document :=
  match req with
  | None => (respond 400 (ErrorBody "Invalid session data"), file)
  | Some sessionData =>
      if negb (Js.truthy (sessionId sessionData)) then
        (respond 400 (ErrorBody "Invalid session data"), file)
      else
        match readARSessions io file with
        | Other _ => (respond 500 (ErrorBody "Internal server error"), file)
        | Records sessions =>
            let sessions := sessions ++ [ {| data := sessionData; savedAt := now |} ] in
            let limitedSessions := Js.slice_last 1000 sessions in
            let '(success, file') := writeARSessions io limitedSessions file in
            if success then
              (respond 200 (SessionSaved (length limitedSessions)), file')
            else
              (respond 500 (ErrorBody "Failed to save session"), file')
        end
  end.

(** [app.get('/api/ar/sessions')] *)
Definition get_sessions (io : Io) (file : Document) : Response :=
  match readARSessions io file with
  | Records sessions => respond 200 (SessionList sessions (length sessions))
  | Other json => respond 200 (SessionsOther json)
  end.

(** [app.delete('/api/ar/sessions')] *)
Definition delete_sessions (io : Io) (file : Document) : Response * Document :=
  let '(success, file') := writeARSessions io [] file in
  if success then (respond 200 ClearedBody, file')
  else (respond 500 (ErrorBody "Failed to clear sessions"), file').

(** One call of [POST /api/ar/session] with what it met. *)
Record Append := {
  io_of : Io;
  now_of : string;
  req_of : option SessionData
}.

(** Sequential appends: each request runs to its end before the next. *)
Definition run_appends (calls : list Append) (file : Document) : Document :=
  foldl (λ f c, (post_session (io_of c) (now_of c) (req_of c) f).2) file calls.

(** The persisted collection: the records a successful read of the file
    gives; none when the file holds no array. *)
Definition persisted (file : Document) : list SessionRecord :=
  match readARSessions healthy file with
  | Records l => l
  | Other _ => []
  end.

(** A call that passes validation and meets no I/O failure. *)
Definition accepted (c : Append) : Prop :=
  io_of c = healthy ∧ ∃ d, req_of c = Some d ∧ Js.truthy (sessionId d) = true.

(** The record such a call appends. *)
Definition stamped (c : Append) : list SessionRecord :=
  match req_of c with
  | Some d => [ {| data := d; savedAt := now_of c |} ]
  | None => []
  end.

(** The records a run of accepted calls appends, oldest first. *)
Definition appended (calls : list Append) : list SessionRecord :=
  flat_map stamped calls.

End ArLog.

(** ** Photo uploads (the multer configuration) *)

Module Photos.

(** One file of the multipart field [photos], with the readings of the
    clock and of the random source taken when its name is generated. *)
Record Upload := {
  extname : string;   (* path.extname(file.originalname) *)
  mimetype : string;  (* file.mimetype *)
  size : N;           (* bytes *)
  stamp : N;          (* Date.now() *)
  random : N          (* Math.round(Math.random() * 1E9) *)
}.

(** [String.prototype.includes]: [sub] occurs somewhere in [s]. *)
Fixpoint includes (s sub : string) : bool :=
  String.prefix sub s ||
  match s with
  | EmptyString => false
  | String _ rest => includes rest sub
  end.

Definition lower_ascii (c : ascii) : ascii :=
  let n := nat_of_ascii c in
  if (65 <=? n)%nat && (n <=? 90)%nat then ascii_of_nat (n + 32) else c.

Fixpoint toLowerCase (s : string) : string :=
  match s with
  | EmptyString => EmptyString
  | String c rest => String (lower_ascii c) (toLowerCase rest)
  end.

(** [/jpeg|jpg|png|webp/.test(s)] *)
Definition allowedTypes (s : string) : bool :=
  includes s "jpeg" || includes s "jpg" || includes s "png" || includes s "webp".

Definition fileFilter (file : Upload) : bool :=
  let extname := allowedTypes (toLowerCase (extname file)) in
  let mimetype := allowedTypes (mimetype file) in
  mimetype && extname.

Definition fileSize_limit : N := 5 * 1024 * 1024.

Definition uniqueSuffix (file : Upload) : string :=
  pretty (stamp file) +:+ "-" +:+ pretty (random file).

Definition filename (file : Upload) : string :=
  uniqueSuffix file +:+ extname file.

(** The path under which a stored file is served and later deleted:
    [`/uploads/${file.filename}`]. *)
Definition access_path (filename : string) : string := "/uploads/" +:+ filename.

(** [upload.array('photos', maxCount)] with disk storage: the files are
    written one after the other, before the route handler runs.  A file
    beyond [maxCount], one the filter refuses or one over the size limit
    aborts the request, and the files already written for it are removed.
    [written] are the names stored so far, [disk] the uploads directory. *)
Fixpoint store_files (maxCount : nat) (files : list Upload)
    (written : list string) (disk : gset string) {struct files}
    : (string + list string) * gset string :=
  match files with
  | [] => (inr written, disk)
  | file :: rest =>
      let abort (msg : string) :=
        (inl msg, disk ∖ list_to_set (access_path <$> written)) in
      match maxCount with
      | O => abort "Unexpected field"
      | S remaining =>
          if negb (fileFilter file) then
            abort "Only image files (jpeg, jpg, png, webp) are allowed"
          else if (fileSize_limit <? size file)%N then
            abort "File too large"
          else
            store_files remaining rest (written ++ [filename file])
              ({[ access_path (filename file) ]} ∪ disk)
      end
  end.

(** A file the upload middleware stores: the filter lets it through and it
    is within the size limit. *)
Definition storable (file : Upload) : Prop :=
  fileFilter file = true ∧ (size file ≤ fileSize_limit)%N.

Definition upload_array (maxCount : nat) (files : list Upload)
    (disk : gset string) : (string + list string) * gset string :=
  store_files maxCount files [] disk.

End Photos.

(** ** Profile store *)

Module Profiles.

(** The object [lovedOnes] and the uploads directory. *)
Record Store := {
  lovedOnes : gmap string Profile;
  uploads : gset string
}.

Definition empty : Store := {| lovedOnes := ∅; uploads := ∅ |}.

(** The text fields of the multipart request: [req.body]. *)
Record CreateBody := {
  body_name : option string;
  body_description : option string;
  body_relationship : option string
}.

(** What the handler reads from the clock: [Date.now()] and
    [new Date().toISOString()]. *)
Record Clock := { now_ms : N; now_iso : string }.

(** [relationship || ''] *)
Definition or_empty (v : option string) : string := default "" v.

(** The route callback of [POST /api/loved-ones].  [files] are the names of
    the stored uploads ([file.filename] over [req.files]); a request
    without files has none. *)
Definition create (clock : Clock) (body : CreateBody) (files : list string)
    (lovedOnes : gmap string Profile) : Response * gmap string Profile :=
  if negb (Js.truthy (body_name body)) || negb (Js.truthy (body_description body)) then
    (respond 400 (ErrorBody "Name and description are required"), lovedOnes)
  else if (length files =? 0)%nat then
    (respond 400 (ErrorBody "At least one photo is required"), lovedOnes)
  else
    let lovedOneId := pretty (now_ms clock) in
    let photos := Photos.access_path <$> files in
    let lovedOne :=
      {| id := lovedOneId;
         name := or_empty (body_name body);
         description := or_empty (body_description body);
         relationship := or_empty (body_relationship body);
         photos := photos;
         createdAt := now_iso clock |} in
    (respond 200 (LovedOneBody lovedOne), <[lovedOneId := lovedOne]> lovedOnes).

(** [app.post('/api/loved-ones', upload.array('photos', 10), ...)]: the
    upload middleware runs first and stores the files; when it aborts, the
    callback never runs and Express answers with its error page. *)
Definition post_loved_one (clock : Clock) (body : CreateBody)
    (files : list Photos.Upload) (st : Store) : Response * Store :=
  match Photos.upload_array 10 files (uploads st) with
  | (inl message, disk) =>
      (uncaught message, {| lovedOnes := lovedOnes st; uploads := disk |})
  | (inr filenames, disk) =>
      let '(response, profiles) := create clock body filenames (lovedOnes st) in
      (response, {| lovedOnes := profiles; uploads := disk |})
  end.

(** [app.get('/api/loved-ones')]: [Object.values(lovedOnes)]. *)
Definition list_loved_ones (st : Store) : list Profile :=
  (map_to_list (lovedOnes st)).*2.

(** [app.get('/api/loved-ones/:id')] *)
Definition get_loved_one (key : string) (st : Store) : Response :=
  match Js.get (lovedOnes st) key with
  | Js.Undefined => respond 404 (ErrorBody "Loved one not found")
  | Js.Own lovedOne => respond 200 (LovedOneBody lovedOne)
  | Js.Inherited k => respond 200 (LovedOneInherited k)
  end.

(** The [forEach] over [lovedOne.photos]: unlink each file that exists. *)
Definition unlink_photos (photos : list string) (disk : gset string) : gset string :=
  foldl (λ d photoPath,
           if bool_decide (photoPath ∈ d) then d ∖ {[ photoPath ]} else d)
        disk photos.

(** [app.delete('/api/loved-ones/:id')].  The handler has no [try]: on an
    inherited builtin, [lovedOne.photos] is [undefined] and [.forEach]
    throws a TypeError. *)
Definition delete_loved_one (key : string) (st : Store) : Response * Store :=
  match Js.get (lovedOnes st) key with
  | Js.Undefined => (respond 404 (ErrorBody "Loved one not found"), st)
  | Js.Inherited _ =>
      (uncaught "Cannot read properties of undefined (reading 'forEach')", st)
  | Js.Own lovedOne =>
      (respond 200 DeletedBody,
       {| lovedOnes := delete key (lovedOnes st);
          uploads := unlink_photos (photos lovedOne) (uploads st) |})
  end.

End Profiles.

(** ** Image request forwarder *)

Module Forwarder.

(** The POST sent to the image service: the bearer token and the prompt;
    model, count, size and quality are constants of the code. *)
Record Outbound := {
  bearer : string;
  out_prompt : string
}.

(** What comes back from [fetch] and [response.json()]. *)
Inductive Upstream :=
| Throws (message : string)                    (* fetch, json() or data.data[0] throws *)
| NotOk (code : nat) (message : option string) (* !response.ok *)
| Generated (url revised_prompt : string).     (* response.ok *)

(** A handler's answer together with the outbound calls it issued. *)
Definition Outcome : Type := Response * list Outbound.

Definition stylistic_suffix : string :=
  " Create this as a vintage dreamlike polaroid photograph with surreal, ethereal qualities, soft focus, nostalgic muted tones, and a touch of the uncanny.".

(** The template literal of [generate-with-loved-one]; the three fields
    are what [lovedOne.name], [lovedOne.description] and
    [lovedOne.relationship] evaluate to. *)
Definition enhancedPrompt (prompt : string)
    (name description relationship : option string) : string :=
  prompt +:+ ". The scene includes " +:+ Js.print name +:+ ", "
    +:+ Js.print description +:+ ". "
    +:+ (if Js.truthy relationship
         then "They were my " +:+ Js.print relationship +:+ "."
         else "")
    +:+ stylistic_suffix.

(** The concatenation of [generate]. *)
Definition styledPrompt (prompt : string) : string :=
  prompt +:+ ", as a vintage dreamlike polaroid photograph with surreal, ethereal qualities, soft focus, nostalgic muted tones, and a touch of the uncanny".

(** The [fetch] and what follows it, shared by both handlers. *)
Definition call_upstream (key : string) (service : Outbound → Upstream)
    (final_prompt : string) (lovedOneName : option string) : Outcome :=
  let request := {| bearer := key; out_prompt := final_prompt |} in
  match service request with
  | Throws message =>
      (respond 500 (ErrorBody ("Internal server error: " +:+ message)), [request])
  | NotOk code message =>
      (respond code (ErrorBody (Js.or_else message "Failed to generate image")), [request])
  | Generated url revised =>
      (respond 200 (ImageBody url revised lovedOneName), [request])
  end.

(** The body of [POST /api/generate-with-loved-one]. *)
Record WithLovedOne := {
  prompt_of : option string;
  lovedOneId_of : option string
}.

(** Property reads on the result of [lovedOnes[lovedOneId]]. *)
Definition name_of (lovedOne : Js.property Profile) : option string :=
  match lovedOne with
  | Js.Own p => Some (name p)
  | Js.Inherited k => Js.builtin_name k
  | Js.Undefined => None
  end.

Definition description_of (lovedOne : Js.property Profile) : option string :=
  match lovedOne with
  | Js.Own p => Some (description p)
  | _ => None
  end.

Definition relationship_of (lovedOne : Js.property Profile) : option string :=
  match lovedOne with
  | Js.Own p => Some (relationship p)
  | _ => None
  end.

(** [app.post('/api/generate-with-loved-one')]; [api_key] is
    [process.env.OPENAI_API_KEY]. *)
Definition post_generate_with_loved_one (api_key : option string)
    (service : Outbound → Upstream) (lovedOnes : gmap string Profile)
    (req : WithLovedOne) : Outcome :=
  if negb (Js.truthy (prompt_of req)) || negb (Js.truthy (lovedOneId_of req)) then
    (respond 400 (ErrorBody "Prompt and lovedOneId are required"), [])
  else
    match Js.get lovedOnes (Profiles.or_empty (lovedOneId_of req)) with
    | Js.Undefined => (respond 404 (ErrorBody "Loved one not found"), [])
    | lovedOne =>
        if negb (Js.truthy api_key) then
          (respond 500 (ErrorBody "OpenAI API key not configured on server"), [])
        else
          call_upstream (Profiles.or_empty api_key) service
            (enhancedPrompt (Profiles.or_empty (prompt_of req))
               (name_of lovedOne) (description_of lovedOne)
               (relationship_of lovedOne))
            (name_of lovedOne)
    end.

(** [app.post('/api/generate')] *)
Definition post_generate (api_key : option string)
    (service : Outbound → Upstream) (prompt : option string) : Outcome :=
  if negb (Js.truthy prompt) then
    (respond 400 (ErrorBody "Prompt is required"), [])
  else if negb (Js.truthy api_key) then
    (respond 500 (ErrorBody "OpenAI API key not configured on server. Please set OPENAI_API_KEY environment variable."), [])
  else
    call_upstream (Profiles.or_empty api_key) service
      (styledPrompt (Profiles.or_empty prompt)) None.

(** [s] ends with [suffix]. *)
Definition ends_with (s suffix : string) : Prop := ∃ front, s = front +:+ suffix.

(** [part] occurs in [s]. *)
Definition occurs_in (part s : string) : Prop :=
  ∃ front back, s = front +:+ part +:+ back.

End Forwarder.

(** ** Concrete requests, used to run the handlers *)

Module Samples.

(** The [i]-th accepted append of a run. *)
Definition append_call (i : nat) : ArLog.Append :=
  {| ArLog.io_of := ArLog.healthy;
     ArLog.now_of := "2024-01-01T00:00:00.000Z";
     ArLog.req_of := Some {| sessionId := Some (pretty i); payload := [] |} |}.

(** The record it stores. *)
Definition append_record (i : nat) : SessionRecord :=
  {| data := {| sessionId := Some (pretty i); payload := [] |};
     savedAt := "2024-01-01T00:00:00.000Z" |}.

Definition session : SessionData :=
  {| sessionId := Some "s-1"; payload := [("device", "headset")] |}.

Definition disk_full : ArLog.Io :=
  {| ArLog.read_ok := true; ArLog.write := ArLog.FailedUntouched |}.

Definition read_error : ArLog.Io :=
  {| ArLog.read_ok := false; ArLog.write := ArLog.Written |}.

Definition mom : Profiles.CreateBody :=
  {| Profiles.body_name := Some "Mom";
     Profiles.body_description := Some "warm smile";
     Profiles.body_relationship := None |}.

Definition nameless : Profiles.CreateBody :=
  {| Profiles.body_name := None;
     Profiles.body_description := Some "warm smile";
     Profiles.body_relationship := None |}.

Definition img : Photos.Upload :=
  {| Photos.extname := ".jpg"; Photos.mimetype := "image/jpeg";
     Photos.size := 204800; Photos.stamp := 1700000000000;
     Photos.random := 42 |}.

Definition img_path : string := "/uploads/1700000000000-42.jpg".

Definition clock : Profiles.Clock :=
  {| Profiles.now_ms := 1700000000123;
     Profiles.now_iso := "2023-11-14T22:13:20.123Z" |}.

Definition later : Profiles.Clock :=
  {| Profiles.now_ms := 1700000000124;
     Profiles.now_iso := "2023-11-14T22:13:20.124Z" |}.

Definition dad : Profiles.CreateBody :=
  {| Profiles.body_name := Some "Dad";
     Profiles.body_description := Some "loud laugh";
     Profiles.body_relationship := Some "father" |}.

(** The profile [create] stores for [dad] at [clock] with one image. *)
Definition dad_profile : Profile :=
  {| id := "1700000000123"; name := "Dad"; description := "loud laugh";
     relationship := "father"; photos := ["/uploads/1700000000001-7.png"];
     createdAt := "2023-11-14T22:13:20.123Z" |}.

(** The profile [create] stores for [mom] at [clock] with [img]. *)
Definition mom_profile : Profile :=
  {| id := "1700000000123"; name := "Mom"; description := "warm smile";
     relationship := ""; photos := [img_path];
     createdAt := "2023-11-14T22:13:20.123Z" |}.

(** An image service that always answers with one image. *)
Definition service (request : Forwarder.Outbound) : Forwarder.Upstream :=
  Forwarder.Generated "https://images.example/1.png" (Forwarder.out_prompt request).

Definition beach_day : Forwarder.WithLovedOne :=
  {| Forwarder.prompt_of := Some "beach day";
     Forwarder.lovedOneId_of := Some "1700000000123" |}.

Definition no_prompt : Forwarder.WithLovedOne :=
  {| Forwarder.prompt_of := None;
     Forwarder.lovedOneId_of := Some "1700000000123" |}.

Definition beach_day_with_constructor : Forwarder.WithLovedOne :=
  {| Forwarder.prompt_of := Some "beach day";
     Forwarder.lovedOneId_of := Some "constructor" |}.

End Samples.

(** ** Generated names and the type filter, character by character *)

Module Chars.

Definition is_digit (c : ascii) : bool :=
  match c with
  | "0" | "1" | "2" | "3" | "4" | "5" | "6" | "7" | "8" | "9" => true
  | _ => false
  end%char.

Fixpoint digits_only (s : string) : bool :=
  match s with
  | EmptyString => true
  | String c rest => is_digit c && digits_only rest
  end.

(** [s] is empty or begins with a character that is no digit: where the
    reading of a printed number stops. *)
Definition stops (s : string) : Prop :=
  match s with
  | EmptyString => True
  | String c _ => is_digit c = false
  end.

(** The shape of what [path.extname] returns: nothing, or a dot and the
    rest. *)
Definition is_extname (e : string) : Prop :=
  e = "" ∨ ∃ rest, e = String "."%char rest.

(** The alternatives of the regular expression [allowedTypes]. *)
Definition alternatives : list string := ["jpeg"; "jpg"; "png"; "webp"].

End Chars.

(** ** Sequences of requests on the profile store *)

Module Lifecycle.

(** The two routes that change the profile store. *)
Inductive Request :=
| PostLovedOne (clock : Profiles.Clock) (body : Profiles.CreateBody)
    (files : list Photos.Upload)
| DeleteLovedOne (key : string).

Definition handle (r : Request) (st : Profiles.Store) : Response * Profiles.Store :=
  match r with
  | PostLovedOne clock body files => Profiles.post_loved_one clock body files st
  | DeleteLovedOne key => Profiles.delete_loved_one key st
  end.

(** The store after the requests were served one after the other. *)
Definition run (rs : list Request) (st : Profiles.Store) : Profiles.Store :=
  foldl (λ s r, (handle r s).2) st rs.

(** What holds of every stored record: it sits under its own id, the id is
    a printed number, name and description are not empty, and it has
    between one and ten photos. *)
Definition record_ok (key : string) (p : Profile) : Prop :=
  id p = key
  ∧ (∃ n : N, key = pretty n)
  ∧ name p ≠ ""
  ∧ description p ≠ ""
  ∧ 1 ≤ length (photos p) ≤ 10.

End Lifecycle.

(** ** Requests on the AR session log that pass validation *)

Module ArRuns.

(** The test of the handler, negated: a body with a truthy [sessionId]. *)
Definition validated (c : ArLog.Append) : bool :=
  match ArLog.req_of c with
  | Some sessionData => Js.truthy (sessionId sessionData)
  | None => false
  end.

End ArRuns.

(** ** The style both generation routes ask for *)

Module Style.

(** The words common to the suffix of [generate] and to the closing
    sentence of [generate-with-loved-one]. *)
Definition text : string :=
  "a vintage dreamlike polaroid photograph with surreal, ethereal qualities, soft focus, nostalgic muted tones, and a touch of the uncanny".

(** [s] begins with [front]. *)
Definition begins_with (s front : string) : Prop := ∃ back, s = front +:+ back.

End Style.

(** ** More concrete requests *)

Module Cases.

(** An image whose type the filter does not allow. *)
Definition gif : Photos.Upload :=
  {| Photos.extname := ".gif"; Photos.mimetype := "image/gif";
     Photos.size := 1024; Photos.stamp := 1700000000000;
     Photos.random := 7 |}.

(** A second allowed image, named a millisecond later. *)
Definition png : Photos.Upload :=
  {| Photos.extname := ".PNG"; Photos.mimetype := "image/png";
     Photos.size := 4096; Photos.stamp := 1700000000001;
     Photos.random := 7 |}.

(** The store after [Samples.mom] was created with [Samples.img]. *)
Definition with_mom : Profiles.Store :=
  {| Profiles.lovedOnes := {[ "1700000000123" := Samples.mom_profile ]};
     Profiles.uploads := {[ Samples.img_path ]} |}.

Definition create_mom_request : Lifecycle.Request :=
  Lifecycle.PostLovedOne Samples.clock Samples.mom [Samples.img].

(** A second profile, created a millisecond after [Samples.mom_profile]. *)
Definition dad_later : Profile :=
  {| id := "1700000000124"; name := "Dad"; description := "loud laugh";
     relationship := "father"; photos := ["/uploads/1700000000001-7.png"];
     createdAt := "2023-11-14T22:13:20.124Z" |}.

(** The store that holds both profiles and their two files. *)
Definition with_both : Profiles.Store :=
  {| Profiles.lovedOnes :=
       <[ "1700000000124" := dad_later ]>
         {[ "1700000000123" := Samples.mom_profile ]};
     Profiles.uploads := {[ Samples.img_path; "/uploads/1700000000001-7.png" ]} |}.

(** An image service that refuses with a status and an empty message. *)
Definition silent (request : Forwarder.Outbound) : Forwarder.Upstream :=
  Forwarder.NotOk 503 (Some "").

(** An image service that refuses with a status and a message. *)
Definition refusing (request : Forwarder.Outbound) : Forwarder.Upstream :=
  Forwarder.NotOk 429 (Some "Rate limit exceeded").

End Cases.

(** * Properties *)

(** ** [slice(-n)] *)

Section SliceLast.
Context {A : Type}.
Implicit Types l m : list A.

Lemma slice_last_length n l : length (Js.slice_last n l) ≤ n.
Proof. unfold Js.slice_last. rewrite length_drop. lia. Qed.

Lemma slice_last_length_eq n l :
  length (Js.slice_last n l) = length l `min` n.
Proof. unfold Js.slice_last. rewrite length_drop. lia. Qed.

Lemma slice_last_short n l : length l ≤ n → Js.slice_last n l = l.
Proof.
  intros Hle. unfold Js.slice_last.
  replace (length l - n) with 0 by lia. apply drop_0.
Qed.

(** Cutting, appending and cutting again is cutting once. *)
Lemma slice_last_absorb n l m :
  Js.slice_last n (Js.slice_last n l ++ m) = Js.slice_last n (l ++ m).
Proof.
  destruct (decide (length l ≤ n)) as [Hle|Hgt].
  { by rewrite (slice_last_short n l). }
  unfold Js.slice_last.
  rewrite <- (drop_app_le l m (length l - n)) by lia.
  rewrite drop_drop, length_drop, !length_app.
  f_equal. lia.
Qed.

(** What is cut off is a front segment: the oldest elements. *)
Lemma slice_last_evicts_front n l :
  l = take (length l - n) l ++ Js.slice_last n l.
Proof. unfold Js.slice_last. by rewrite take_drop. Qed.
End SliceLast.

(** ** AR session log *)

Section ArLogProps.
Import ArLog.

Lemma persisted_Sessions l : persisted (Sessions l) = l.
Proof. reflexivity. Qed.

(** One request never leaves more than 1000 records behind, whatever the
    request and whatever the I/O does. *)
Lemma post_session_bounded io now req file :
  length (persisted file) ≤ 1000 →
  length (persisted (post_session io now req file).2) ≤ 1000.
Proof.
  intros Hfile. unfold post_session.
  destruct req as [d|]; [|done].
  destruct (negb (Js.truthy (sessionId d))); [done|].
  destruct (readARSessions io file) as [sessions|json]; [|done].
  unfold writeARSessions. destruct (write io); simpl; try done; try lia.
  apply slice_last_length.
Qed.

Lemma run_appends_bounded calls file :
  length (persisted file) ≤ 1000 →
  length (persisted (run_appends calls file)) ≤ 1000.
Proof.
  revert file. induction calls as [|c calls IH]; intros file Hfile; [done|].
  apply IH. by apply post_session_bounded.
Qed.

(** An accepted call on a well-formed document. *)
Lemma post_session_accepted c l :
  accepted c →
  post_session (io_of c) (now_of c) (req_of c) (Sessions l)
  = (respond 200 (SessionSaved (length (Js.slice_last 1000 (l ++ stamped c)))),
     Sessions (Js.slice_last 1000 (l ++ stamped c))).
Proof.
  intros [Hio (d & Hreq & Hid)]. unfold post_session, stamped.
  rewrite Hreq, Hid, Hio. reflexivity.
Qed.

Lemma run_appends_accepted calls l :
  Forall accepted calls →
  length l ≤ 1000 →
  run_appends calls (Sessions l) = Sessions (Js.slice_last 1000 (l ++ appended calls)).
Proof.
  intros Hall. revert l.
  induction Hall as [|c calls Hc _ IH]; intros l Hl.
  - simpl. unfold appended. simpl. rewrite app_nil_r.
    by rewrite slice_last_short.
  - unfold run_appends. simpl. rewrite (post_session_accepted c l Hc). simpl.
    fold (run_appends calls (Sessions (Js.slice_last 1000 (l ++ stamped c)))).
    rewrite IH by apply slice_last_length.
    rewrite slice_last_absorb. unfold appended. simpl.
    by rewrite <- app_assoc.
Qed.

Lemma appended_length calls :
  Forall accepted calls → length (appended calls) = length calls.
Proof.
  induction 1 as [|c calls [_ (d & Hreq & _)] _ IH]; [done|].
  unfold appended in *. simpl. rewrite length_app, IH.
  unfold stamped. by rewrite Hreq.
Qed.

(** C1. Starting from a document of at most 1000 records (the empty one
    written at startup, or any the log wrote itself): (1) after any
    sequence of sequential appends, whatever the requests and the I/O
    outcomes, the persisted collection has at most 1000 records; (2) after
    a sequence of accepted appends it is exactly the last 1000 of the old
    records followed by the appended ones, so what was dropped is a front
    segment, the oldest records; (3) 1005 accepted appends on the empty
    document leave the 1000 most recent: all but the first five. *)
Theorem ar_log_keeps_most_recent_1000 (old : list SessionRecord) :
  length old ≤ 1000 →
  (∀ calls, length (persisted (run_appends calls (Sessions old))) ≤ 1000)
  ∧ (∀ calls, Forall accepted calls →
       let all := old ++ appended calls in
       let kept := persisted (run_appends calls (Sessions old)) in
       kept = Js.slice_last 1000 all
       ∧ all = take (length all - 1000) all ++ kept
       ∧ length kept = length all `min` 1000)
  ∧ (∀ calls, Forall accepted calls → length calls = 1005 →
       let kept := persisted (run_appends calls initial) in
       kept = drop 5 (appended calls) ∧ length kept = 1000).
Proof.
  intros Hold. split; [|split].
  - intros calls. by apply run_appends_bounded.
  - intros calls Hall all kept. subst kept.
    rewrite run_appends_accepted, persisted_Sessions by done.
    split; [done|]. split.
    + apply slice_last_evicts_front.
    + apply slice_last_length_eq.
  - intros calls Hall Hlen kept. subst kept. unfold initial.
    rewrite run_appends_accepted, persisted_Sessions by (done || simpl; lia).
    simpl. pose proof (appended_length calls Hall) as Happ.
    unfold Js.slice_last. rewrite Happ, Hlen. split; [done|].
    rewrite length_drop. lia.
Qed.
End ArLogProps.


(** Running the handler 1005 times on the empty document: records 5 to 1004
    remain, in order. *)
Example append_1005_run :
  ArLog.run_appends (Samples.append_call <$> seq 0 1005) ArLog.initial
  = ArLog.Sessions (Samples.append_record <$> seq 5 1000).
Proof. vm_compute. reflexivity. Qed.

Lemma ar_log_keeps_most_recent_1000_witness :
  length [Samples.append_record 0] ≤ 1000
  ∧ ArLog.persisted
      (ArLog.run_appends [Samples.append_call 1; Samples.append_call 2]
         (ArLog.Sessions [Samples.append_record 0]))
    = Samples.append_record <$> [0; 1; 2].
Proof.
  split; [simpl; lia|].
  destruct (ar_log_keeps_most_recent_1000 [Samples.append_record 0]) as (_ & Hfifo & _);
    [simpl; lia|].
  destruct (Hfifo [Samples.append_call 1; Samples.append_call 2]) as (Hkept & _).
  - repeat constructor; eexists; (split; [reflexivity|]); reflexivity.
  - rewrite Hkept. reflexivity.
Defined.

Section ArLogFailures.
Import ArLog.

(** C9. For a request that passes validation: (1) when the read of the
    document fails (the read throws, or the content does not parse), the
    sequence read is empty, listing answers 200 with the empty sequence, and
    an append goes on from the empty sequence instead of failing; (2) when
    the write fails, append and clear both answer 500, append with the
    message of the failed save whenever what it read was an array. *)
Theorem ar_log_read_fail_soft_write_reported
    (io : Io) (file : Document) (now : string) (d : SessionData) :
  Js.truthy (sessionId d) = true →
  ((read_ok io = false ∨ file = Unreadable) →
     readARSessions io file = Records []
     ∧ get_sessions io file = respond 200 (SessionList [] 0)
     ∧ (write io = Written →
        post_session io now (Some d) file
        = (respond 200 (SessionSaved 1),
           Sessions [ {| data := d; savedAt := now |} ])))
  ∧ (write io ≠ Written →
     status (post_session io now (Some d) file).1 = 500
     ∧ ((∀ json, readARSessions io file ≠ Other json) →
        (post_session io now (Some d) file).1
        = respond 500 (ErrorBody "Failed to save session"))
     ∧ (delete_sessions io file).1
       = respond 500 (ErrorBody "Failed to clear sessions")).
Proof.
  intros Hid. split.
  - intros Hread.
    assert (readARSessions io file = Records []) as Hnil.
    { unfold readARSessions. destruct Hread as [->| ->]; [done|].
      by destruct (read_ok io). }
    split; [done|]. split.
    + unfold get_sessions. by rewrite Hnil.
    + intros Hw. unfold post_session, writeARSessions.
      rewrite Hid, Hnil, Hw. reflexivity.
  - intros Hw. unfold post_session, delete_sessions, writeARSessions.
    rewrite Hid. simpl.
    destruct (readARSessions io file) as [sessions|json];
      destruct (write io); simpl; repeat split; try done.
    all: intros Hno; by destruct (Hno json).
Qed.
End ArLogFailures.

Lemma ar_log_read_fail_soft_write_reported_witness :
  Js.truthy (sessionId Samples.session) = true
  ∧ ArLog.readARSessions Samples.read_error (ArLog.Sessions [Samples.append_record 0])
    = ArLog.Records []
  ∧ (ArLog.post_session Samples.disk_full "now" (Some Samples.session) ArLog.Unreadable).1
    = respond 500 (ErrorBody "Failed to save session").
Proof.
  split; [reflexivity|]. split.
  - apply (ar_log_read_fail_soft_write_reported Samples.read_error
             (ArLog.Sessions [Samples.append_record 0]) "now" Samples.session);
      [reflexivity | left; reflexivity].
  - apply (ar_log_read_fail_soft_write_reported Samples.disk_full
             ArLog.Unreadable "now" Samples.session);
      [reflexivity | discriminate | intros json; discriminate].
Defined.


(** ** Property reads on [lovedOnes] *)

Section JsGet.
Context {A : Type}.
Implicit Types obj : gmap string A.

Lemma get_own obj key v : obj !! key = Some v → Js.get obj key = Js.Own v.
Proof. intros H. unfold Js.get. by rewrite H. Qed.

Lemma get_own_inv obj key v : Js.get obj key = Js.Own v → obj !! key = Some v.
Proof.
  unfold Js.get. destruct (obj !! key); [congruence|].
  by destruct (bool_decide _).
Qed.

Lemma get_undefined obj key :
  obj !! key = None → key ∉ Js.object_prototype_keys →
  Js.get obj key = Js.Undefined.
Proof.
  intros H Hk. unfold Js.get. rewrite H.
  by rewrite bool_decide_eq_false_2.
Qed.

Lemma get_inherited obj key :
  obj !! key = None → key ∈ Js.object_prototype_keys →
  Js.get obj key = Js.Inherited key.
Proof.
  intros H Hk. unfold Js.get. rewrite H.
  by rewrite bool_decide_eq_true_2.
Qed.
End JsGet.

(** ** Photo files *)

Section PhotoFiles.
Import Photos.

(** Unlinking the files that exist is removing the paths from the disk. *)
Lemma unlink_photos_difference photos (disk : gset string) :
  Profiles.unlink_photos photos disk = disk ∖ list_to_set photos.
Proof.
  unfold Profiles.unlink_photos. revert disk.
  induction photos as [|p photos IH]; intros disk; simpl.
  - set_solver.
  - rewrite IH. case_bool_decide; set_solver.
Qed.

(** When the middleware hands over, every file of the request is on disk
    and nothing else changed. *)
Lemma store_files_handed_over n files written disk names disk' :
  store_files n files written disk = (inr names, disk') →
  names = written ++ (filename <$> files)
  ∧ disk' = list_to_set (access_path <$> (filename <$> files)) ∪ disk.
Proof.
  revert n written disk.
  induction files as [|f files IH]; intros n written disk; simpl.
  - intros ?; simplify_eq. simpl. rewrite app_nil_r. split; [reflexivity|set_solver].
  - destruct n as [|n]; [done|].
    destruct (negb (fileFilter f)); [done|].
    destruct (fileSize_limit <? size f)%N; [done|].
    intros H. apply IH in H as [-> ->].
    rewrite <- app_assoc. split; [done|]. set_solver.
Qed.

Lemma store_files_storable n files written disk :
  length files ≤ n → Forall storable files →
  store_files n files written disk
  = (inr (written ++ (filename <$> files)),
     list_to_set (access_path <$> (filename <$> files)) ∪ disk).
Proof.
  intros Hlen Hall. revert n written disk Hlen.
  induction Hall as [|f files [Hf Hsize] _ IH]; intros n written disk Hlen; simpl.
  - rewrite app_nil_r. f_equal. set_solver.
  - destruct n as [|n]; [simpl in Hlen; lia|].
    rewrite Hf. simpl.
    destruct (N.ltb_spec fileSize_limit (size f)) as [Hlt|_]; [lia|].
    rewrite IH by (simpl in Hlen; lia).
    rewrite <- app_assoc. f_equal. set_solver.
Qed.
End PhotoFiles.


(** ** Profile store: creation *)

Section Create.
Import Profiles.

Lemma truthy_Some v : Js.truthy v = true → ∃ s, v = Some s ∧ s ≠ "".
Proof.
  destruct v as [s|]; [|done]. simpl. intros H. exists s. split; [done|].
  intros ->. done.
Qed.

(** The three ways validation refuses a request. *)
Lemma create_refused clock body files (profiles : gmap string Profile) :
  Js.truthy (body_name body) = false
  ∨ Js.truthy (body_description body) = false
  ∨ files = [] →
  status (create clock body files profiles).1 = 400
  ∧ (create clock body files profiles).2 = profiles.
Proof.
  unfold create. intros [->|[->| ->]]; simpl; try done.
  - by rewrite orb_true_r.
  - by destruct (_ || _).
Qed.

Lemma create_stored clock body files (profiles : gmap string Profile) :
  Js.truthy (body_name body) = true →
  Js.truthy (body_description body) = true →
  files ≠ [] →
  let lovedOne :=
    {| id := pretty (now_ms clock);
       name := or_empty (body_name body);
       description := or_empty (body_description body);
       relationship := or_empty (body_relationship body);
       photos := Photos.access_path <$> files;
       createdAt := now_iso clock |} in
  create clock body files profiles
  = (respond 200 (LovedOneBody lovedOne), <[id lovedOne := lovedOne]> profiles).
Proof.
  intros Hn Hd Hf. unfold create. rewrite Hn, Hd. simpl.
  destruct files; [done|]. reflexivity.
Qed.

(** A 200 from [create] comes with the record stored under the printed
    timestamp. *)
Lemma create_success_inv clock body files (profiles profiles' : gmap string Profile) p :
  create clock body files profiles = (respond 200 (LovedOneBody p), profiles') →
  id p = pretty (now_ms clock) ∧ profiles' = <[id p := p]> profiles.
Proof.
  unfold create.
  destruct (_ || _); [done|]. destruct (_ =? _)%nat; [done|].
  intros ?; simplify_eq. done.
Qed.

End Create.

(** The scenario of the testable properties: [mom] with one image. *)
Example create_mom :
  Profiles.post_loved_one Samples.clock Samples.mom [Samples.img] Profiles.empty
  = (respond 200 (LovedOneBody Samples.mom_profile),
     {| Profiles.lovedOnes := {[ "1700000000123" := Samples.mom_profile ]};
        Profiles.uploads := {[ Samples.img_path ]} |}).
Proof.
  unfold Profiles.post_loved_one, Photos.upload_array.
  rewrite store_files_storable;
    [| simpl; lia | repeat constructor; vm_compute; congruence].
  simpl. repeat f_equal.
Qed.

(** ** Profile store: validation and the uploaded files *)

Section UploadBeforeValidation.
Import Profiles.



End UploadBeforeValidation.


(** ** Profile store: ids *)

Section Ids.
Import Profiles.

(** The claim C5 fails: two creates that read the same millisecond from the
    clock get the same id, and the second record replaces the first. *)
Lemma same_millisecond_counterexample :
  create Samples.clock Samples.mom ["1700000000000-42.jpg"] ∅
  = (respond 200 (LovedOneBody Samples.mom_profile),
     {[ "1700000000123" := Samples.mom_profile ]})
  ∧ create Samples.clock Samples.dad ["1700000000001-7.png"]
      {[ "1700000000123" := Samples.mom_profile ]}
    = (respond 200 (LovedOneBody Samples.dad_profile),
       {[ "1700000000123" := Samples.dad_profile ]})
  ∧ id Samples.mom_profile = id Samples.dad_profile
  ∧ Samples.mom_profile ≠ Samples.dad_profile.
Proof.
  assert (pretty 1700000000123%N = "1700000000123") as Hid
    by (vm_compute; reflexivity).
  split; [|split; [|split]].
  - unfold create. simpl. rewrite Hid. reflexivity.
  - unfold create. simpl. rewrite Hid. f_equal; try apply insert_singleton_eq.
  - reflexivity.
  - discriminate.
Qed.

(** A create never touches the entries stored under other ids. *)
Lemma create_frame clock body files (profiles : gmap string Profile) key :
  key ≠ pretty (now_ms clock) →
  (create clock body files profiles).2 !! key = profiles !! key.
Proof.
  intros Hne. unfold create.
  destruct (_ || _); [done|]. destruct (_ =? _)%nat; [done|].
  simpl. by rewrite lookup_insert_ne.
Qed.

(** C5, amended. The id of a created profile is the decimal print of the
    millisecond read from the clock, so two successful creates get the same
    id exactly when they read the same millisecond.  A create changes no
    entry but the one under its own id; hence when the two milliseconds
    differ the ids differ and the later create leaves the earlier record in
    place. *)
Theorem create_ids_distinct_across_milliseconds
    (c1 c2 : Clock) (b1 b2 : CreateBody) (f1 f2 : list string)
    (m m1 m' m2 : gmap string Profile) (p1 p2 : Profile) :
  create c1 b1 f1 m = (respond 200 (LovedOneBody p1), m1) →
  create c2 b2 f2 m' = (respond 200 (LovedOneBody p2), m2) →
  id p1 = pretty (now_ms c1)
  ∧ id p2 = pretty (now_ms c2)
  ∧ (id p1 = id p2 ↔ now_ms c1 = now_ms c2)
  ∧ (∀ key, key ≠ id p2 → m2 !! key = m' !! key)
  ∧ (now_ms c1 ≠ now_ms c2 →
     id p1 ≠ id p2 ∧ (m' !! id p1 = Some p1 → m2 !! id p1 = Some p1)).
Proof.
  intros H1 H2.
  apply create_success_inv in H1 as [Hid1 ->].
  apply create_success_inv in H2 as [Hid2 ->].
  assert (id p1 = id p2 ↔ now_ms c1 = now_ms c2) as Hiff.
  { rewrite Hid1, Hid2. split; [apply (inj pretty)|by intros ->]. }
  split; [done|]. split; [done|]. split; [done|]. split.
  - intros key Hne. by rewrite lookup_insert_ne.
  - intros Hne.
    assert (id p1 ≠ id p2) as Hdiff by (intros Heq; by apply Hiff in Heq).
    split; [done|]. intros Hin. by rewrite lookup_insert_ne.
Qed.
End Ids.

Lemma create_ids_distinct_across_milliseconds_witness :
  Profiles.create Samples.clock Samples.mom ["1700000000000-42.jpg"] ∅
  = (respond 200 (LovedOneBody Samples.mom_profile),
     <[ "1700000000123" := Samples.mom_profile ]> ∅)
  ∧ (Profiles.now_ms Samples.clock ≠ Profiles.now_ms Samples.later →
     id Samples.mom_profile
     ≠ pretty (Profiles.now_ms Samples.later)).
Proof.
  split; [reflexivity|].
  intros Hne.
  destruct (create_ids_distinct_across_milliseconds
              Samples.clock Samples.later Samples.mom Samples.dad
              ["1700000000000-42.jpg"] ["1700000000001-7.png"]
              ∅ (<[ "1700000000123" := Samples.mom_profile ]> ∅)
              (<[ "1700000000123" := Samples.mom_profile ]> ∅)
              _ Samples.mom_profile _ eq_refl eq_refl)
    as (_ & _ & _ & _ & Hdistinct).
  apply Hdistinct. exact Hne.
Defined.

(** ** Profile store: the ids in use are printed numbers *)

Section PrintedIds.

Lemma pretty_N_go_digit x s :
  Js.starts_with_digit s → Js.starts_with_digit (pretty_N_go x s).
Proof.
  revert s. induction (N.lt_wf_0 x) as [x _ IH]; intros s Hs.
  destruct (decide (x = 0)%N) as [->|Hx].
  - by rewrite pretty_N_go_0.
  - rewrite pretty_N_go_step by lia.
    apply IH; [apply N.div_lt; lia|].
    by eexists _, _.
Qed.

Lemma pretty_N_digit (x : N) : Js.starts_with_digit (pretty x).
Proof.
  unfold pretty, pretty_N. case_decide as Hx.
  - by exists 0%N, "".
  - rewrite pretty_N_go_step by lia.
    apply pretty_N_go_digit. by eexists _, _.
Qed.

(** A printed number is none of the names inherited from the prototype. *)
Lemma printed_id_not_inherited (x : N) : pretty x ∉ Js.object_prototype_keys.
Proof.
  destruct (pretty_N_digit x) as (d & rest & ->).
  unfold Js.object_prototype_keys. rewrite !not_elem_of_cons.
  repeat split; try apply not_elem_of_nil;
    intros [= Hc _]; revert Hc; unfold pretty_N_char;
    by repeat case_match.
Qed.
End PrintedIds.


(** ** Profile store: deletion *)

Section Delete.
Import Profiles.

(** Deleting a stored profile whose id is not a name of the prototype:
    200, the photo files are gone (those already missing are skipped), the
    record is gone, and a later get or delete of the id answers 404. *)
Lemma delete_stored st key p :
  lovedOnes st !! key = Some p →
  key ∉ Js.object_prototype_keys →
  (delete_loved_one key st).1 = respond 200 DeletedBody
  ∧ uploads (delete_loved_one key st).2 = uploads st ∖ list_to_set (photos p)
  ∧ (∀ path, path ∈ photos p → path ∉ uploads (delete_loved_one key st).2)
  ∧ lovedOnes (delete_loved_one key st).2 = delete key (lovedOnes st)
  ∧ get_loved_one key (delete_loved_one key st).2
    = respond 404 (ErrorBody "Loved one not found")
  ∧ delete_loved_one key (delete_loved_one key st).2
    = (respond 404 (ErrorBody "Loved one not found"), (delete_loved_one key st).2).
Proof.
  intros Hp Hkey.
  assert (delete_loved_one key st
          = (respond 200 DeletedBody,
             {| lovedOnes := delete key (lovedOnes st);
                uploads := uploads st ∖ list_to_set (photos p) |})) as ->.
  { unfold delete_loved_one. rewrite (get_own _ _ _ Hp).
    by rewrite unlink_photos_difference. }
  assert (Js.get (delete key (lovedOnes st)) key = Js.Undefined) as Hgone.
  { apply get_undefined; [apply lookup_delete_eq|done]. }
  simpl. split; [done|]. split; [done|]. split; [set_solver|]. split; [done|].
  unfold get_loved_one, delete_loved_one. simpl. by rewrite Hgone.
Qed.

(** Deleting an id that is neither stored nor a name of the prototype. *)
Lemma delete_unknown st key :
  lovedOnes st !! key = None →
  key ∉ Js.object_prototype_keys →
  delete_loved_one key st = (respond 404 (ErrorBody "Loved one not found"), st).
Proof.
  intros Hnone Hkey. unfold delete_loved_one.
  by rewrite get_undefined.
Qed.

(** The ids [create] hands out are printed numbers, so the two lemmas above
    cover every id the store ever holds. *)
Lemma created_id_not_inherited clock body files
    (profiles profiles' : gmap string Profile) p :
  create clock body files profiles = (respond 200 (LovedOneBody p), profiles') →
  id p ∉ Js.object_prototype_keys.
Proof.
  intros [-> _]%create_success_inv. apply printed_id_not_inherited.
Qed.

(** C2 at the failing input: [DELETE /api/loved-ones/constructor] on a
    store that holds no such id (here the empty store).  The lookup finds
    the builtin inherited from the prototype, the 404 guard is passed, the
    [forEach] throws and Express answers 500: the id is not in the store and
    the answer is not 404.  A get of the same id answers 200. *)
Theorem delete_inherited_key_is_not_404 :
  lovedOnes empty !! "constructor" = None
  ∧ delete_loved_one "constructor" empty
    = (uncaught "Cannot read properties of undefined (reading 'forEach')", empty)
  ∧ status (delete_loved_one "constructor" empty).1 = 500
  ∧ status (delete_loved_one "constructor" empty).1 ≠ 404
  ∧ status (get_loved_one "constructor" empty) = 200.
Proof.
  assert (Js.get (lovedOnes empty) "constructor" = Js.Inherited "constructor") as Hget.
  { apply get_inherited; [apply lookup_empty|].
    unfold Js.object_prototype_keys. set_solver. }
  unfold delete_loved_one, get_loved_one. rewrite Hget. simpl.
  repeat split; try done.
Qed.

(** C10. Deleting a stored profile [d] succeeds and is local to it: every
    other id [x] reads as before (own entry, photo list and all), and a
    photo file of [x] that is no photo of [d] is on disk after the deletion
    exactly when it was before. *)
Theorem delete_leaves_other_profiles (st : Store) (d x : string) (pd : Profile) :
  lovedOnes st !! d = Some pd →
  x ≠ d →
  status (delete_loved_one d st).1 = 200
  ∧ lovedOnes (delete_loved_one d st).2 !! x = lovedOnes st !! x
  ∧ Js.get (lovedOnes (delete_loved_one d st).2) x = Js.get (lovedOnes st) x
  ∧ (∀ px, lovedOnes st !! x = Some px →
       (∀ path, path ∈ photos px → path ∉ photos pd) →
       ∀ path, path ∈ photos px →
         (path ∈ uploads (delete_loved_one d st).2 ↔ path ∈ uploads st)).
Proof.
  intros Hd Hx. unfold delete_loved_one.
  rewrite (get_own _ _ _ Hd). simpl.
  assert (delete d (lovedOnes st) !! x = lovedOnes st !! x) as Hframe
    by (by apply lookup_delete_ne).
  split; [done|]. split; [done|]. split.
  - unfold Js.get. by rewrite Hframe.
  - intros px _ Hdisjoint path Hin.
    rewrite unlink_photos_difference. specialize (Hdisjoint path Hin).
    set_solver.
Qed.
End Delete.

Lemma delete_leaves_other_profiles_witness :
  Profiles.lovedOnes Cases.with_both !! "1700000000123" = Some Samples.mom_profile
  ∧ "1700000000124" ≠ "1700000000123"
  ∧ status (Profiles.delete_loved_one "1700000000123" Cases.with_both).1 = 200
  ∧ Profiles.lovedOnes (Profiles.delete_loved_one "1700000000123" Cases.with_both).2
      !! "1700000000124" = Some Cases.dad_later
  ∧ "/uploads/1700000000001-7.png"
    ∈ Profiles.uploads (Profiles.delete_loved_one "1700000000123" Cases.with_both).2
  ∧ Samples.img_path
    ∉ Profiles.uploads (Profiles.delete_loved_one "1700000000123" Cases.with_both).2.
Proof.
  assert (Profiles.lovedOnes Cases.with_both !! "1700000000123"
          = Some Samples.mom_profile) as Hd.
  { unfold Cases.with_both. simpl.
    rewrite lookup_insert_ne by discriminate. apply lookup_singleton_eq. }
  assert (Profiles.lovedOnes Cases.with_both !! "1700000000124"
          = Some Cases.dad_later) as Hx by apply lookup_insert_eq.
  assert ("1700000000124" ≠ "1700000000123") as Hne by discriminate.
  destruct (delete_leaves_other_profiles Cases.with_both
              "1700000000123" "1700000000124" Samples.mom_profile Hd Hne)
    as (H200 & Hentry & _ & Hfiles).
  split; [exact Hd|]. split; [exact Hne|]. split; [exact H200|].
  split; [by rewrite Hentry|]. split.
  - apply (Hfiles Cases.dad_later Hx).
    + intros path Hin Hmom. simpl in Hin, Hmom.
      apply list_elem_of_singleton in Hin. apply list_elem_of_singleton in Hmom.
      subst path. discriminate.
    + simpl. apply list_elem_of_singleton. reflexivity.
    + simpl. apply elem_of_union_r. apply elem_of_singleton. reflexivity.
  - destruct (delete_stored Cases.with_both "1700000000123" Samples.mom_profile Hd)
      as (_ & _ & Hgone & _); [compute_done|].
    apply Hgone. simpl. apply list_elem_of_singleton. reflexivity.
Defined.


(** ** Image request forwarder *)

Section ForwarderProps.
Import Forwarder.

Lemma string_app_cons c s t : String c s +:+ t = String c (s +:+ t).
Proof. reflexivity. Qed.

Lemma string_app_assoc s t u : (s +:+ t) +:+ u = s +:+ t +:+ u.
Proof.
  induction s as [|c s IH]; [reflexivity|].
  by rewrite !string_app_cons, IH.
Qed.

Lemma truthy_false_iff v : Js.truthy v = false ↔ v = None ∨ v = Some "".
Proof.
  destruct v as [s|]; simpl; [|naive_solver].
  destruct (String.eqb_spec s ""); naive_solver.
Qed.

Lemma truthy_nonempty s : s ≠ "" → Js.truthy (Some s) = true.
Proof. intros Hs. simpl. by destruct (String.eqb_spec s ""). Qed.

(** Every way through [call_upstream] issues exactly one request. *)
Lemma call_upstream_once key service final lovedOneName :
  (call_upstream key service final lovedOneName).2
  = [ {| bearer := key; out_prompt := final |} ].
Proof. unfold call_upstream. by destruct (service _). Qed.

(** Without a credential neither handler reaches [call_upstream]. *)
Lemma post_generate_no_key api_key service prompt :
  Js.truthy api_key = false →
  (post_generate api_key service prompt).2 = [].
Proof.
  intros Hkey. unfold post_generate. rewrite Hkey. simpl.
  by destruct (negb _).
Qed.

Lemma post_generate_with_loved_one_no_key api_key service profiles req :
  Js.truthy api_key = false →
  (post_generate_with_loved_one api_key service profiles req).2 = [].
Proof.
  intros Hkey. unfold post_generate_with_loved_one. rewrite Hkey. simpl.
  destruct (_ || _); [done|]. by destruct (Js.get _ _).
Qed.
End ForwarderProps.

Section Credential.
Import Forwarder.

(** The claim C6 fails: with no credential, a request without a prompt is
    answered 400 by [generate], and a request for an unknown profile is
    answered 404 by [generate-with-loved-one]; neither is a 500. *)
Lemma checks_before_credential_counterexample :
  Js.truthy None = false
  ∧ post_generate None Samples.service None
    = (respond 400 (ErrorBody "Prompt is required"), [])
  ∧ post_generate_with_loved_one None Samples.service ∅ Samples.beach_day
    = (respond 404 (ErrorBody "Loved one not found"), []).
Proof.
  split; [reflexivity|]. split; [reflexivity|].
  unfold post_generate_with_loved_one. simpl.
  rewrite get_undefined; [reflexivity|apply lookup_empty|].
  apply (printed_id_not_inherited 1700000000123).
Qed.

(** C6, amended. While no credential is configured, neither handler issues
    an outbound request, whatever the request, and the request fails.
    [generate] answers 400 when the prompt is missing and the 500 of the
    missing credential otherwise.  [generate-with-loved-one] answers 400 when
    the prompt or the lovedOneId is missing; 404 when both are there and the
    lovedOneId is neither the id of a stored profile nor a property name
    inherited from the prototype; and the 500 of the missing credential when
    both are there and a profile is stored under the lovedOneId. *)
Theorem no_credential_no_outbound_call
    (api_key : option string) (service : Outbound → Upstream) :
  Js.truthy api_key = false →
  (∀ prompt,
     (post_generate api_key service prompt).2 = []
     ∧ (Js.truthy prompt = true →
        (post_generate api_key service prompt).1
        = respond 500 (ErrorBody "OpenAI API key not configured on server. Please set OPENAI_API_KEY environment variable."))
     ∧ (Js.truthy prompt = false →
        (post_generate api_key service prompt).1
        = respond 400 (ErrorBody "Prompt is required")))
  ∧ (∀ (profiles : gmap string Profile) req,
     (post_generate_with_loved_one api_key service profiles req).2 = []
     ∧ (Js.truthy (prompt_of req) = false ∨ Js.truthy (lovedOneId_of req) = false →
        (post_generate_with_loved_one api_key service profiles req).1
        = respond 400 (ErrorBody "Prompt and lovedOneId are required"))
     ∧ (Js.truthy (prompt_of req) = true →
        Js.truthy (lovedOneId_of req) = true →
        profiles !! Profiles.or_empty (lovedOneId_of req) = None →
        Profiles.or_empty (lovedOneId_of req) ∉ Js.object_prototype_keys →
        (post_generate_with_loved_one api_key service profiles req).1
        = respond 404 (ErrorBody "Loved one not found"))
     ∧ (Js.truthy (prompt_of req) = true →
        Js.truthy (lovedOneId_of req) = true →
        is_Some (profiles !! Profiles.or_empty (lovedOneId_of req)) →
        (post_generate_with_loved_one api_key service profiles req).1
        = respond 500 (ErrorBody "OpenAI API key not configured on server"))
     ∧ (status (post_generate_with_loved_one api_key service profiles req).1 = 400
        ∨ status (post_generate_with_loved_one api_key service profiles req).1 = 404
        ∨ status (post_generate_with_loved_one api_key service profiles req).1 = 500)).
Proof.
  intros Hkey. split.
  - intros prompt. split; [by apply post_generate_no_key|].
    unfold post_generate. rewrite Hkey.
    split; intros ->; reflexivity.
  - intros profiles req.
    split; [by apply post_generate_with_loved_one_no_key|].
    unfold post_generate_with_loved_one. rewrite Hkey.
    split; [|split; [|split]].
    + intros [-> | ->]; [done|]. by rewrite orb_true_r.
    + intros -> -> Hnone Hout. simpl. by rewrite get_undefined.
    + intros -> -> [p Hp]. simpl. by rewrite (get_own _ _ _ Hp).
    + destruct (_ || _); [by left|].
      destruct (Js.get _ _); simpl; auto.
Qed.
End Credential.

Lemma no_credential_no_outbound_call_witness :
  Js.truthy (Some "") = false
  ∧ (Forwarder.post_generate (Some "") Samples.service (Some "beach day")).2 = []
  ∧ (Forwarder.post_generate_with_loved_one (Some "") Samples.service
       {[ "1700000000123" := Samples.mom_profile ]} Samples.beach_day).1
    = respond 500 (ErrorBody "OpenAI API key not configured on server")
  ∧ (Forwarder.post_generate_with_loved_one (Some "") Samples.service
       ∅ Samples.beach_day).1
    = respond 404 (ErrorBody "Loved one not found")
  ∧ (Forwarder.post_generate_with_loved_one (Some "") Samples.service
       ∅ Samples.no_prompt).1
    = respond 400 (ErrorBody "Prompt and lovedOneId are required").
Proof.
  split; [reflexivity|].
  destruct (no_credential_no_outbound_call (Some "") Samples.service eq_refl)
    as [Hgen Hwith].
  split; [apply (Hgen (Some "beach day"))|]. split; [|split].
  - apply (Hwith {[ "1700000000123" := Samples.mom_profile ]} Samples.beach_day);
      [reflexivity | reflexivity |].
    exists Samples.mom_profile. apply lookup_singleton_eq.
  - apply (Hwith ∅ Samples.beach_day);
      [reflexivity | reflexivity | apply lookup_empty | compute_done].
  - apply (Hwith ∅ Samples.no_prompt). left. reflexivity.
Defined.

Section UnknownProfile.
Import Forwarder.

(** The claim C7 fails: the id resolves to no stored profile, and the
    request, which has no prompt, is answered 400. *)
Lemma missing_prompt_before_lookup_counterexample :
  (∅ : gmap string Profile) !! "1700000000123" = None
  ∧ post_generate_with_loved_one (Some "sk-test") Samples.service ∅ Samples.no_prompt
    = (respond 400 (ErrorBody "Prompt and lovedOneId are required"), []).
Proof. split; [apply lookup_empty|reflexivity]. Qed.

(** C7, amended. A request that lacks the prompt or the lovedOneId is
    answered 400; one that has both, and whose lovedOneId is neither the id
    of a stored profile nor a property name inherited from the prototype, is
    answered 404.  In both cases no outbound call is issued. *)
Theorem unknown_loved_one_no_outbound_call
    (api_key : option string) (service : Outbound → Upstream)
    (profiles : gmap string Profile) (req : WithLovedOne) :
  profiles !! Profiles.or_empty (lovedOneId_of req) = None →
  (Js.truthy (prompt_of req) = false ∨ Js.truthy (lovedOneId_of req) = false →
   post_generate_with_loved_one api_key service profiles req
   = (respond 400 (ErrorBody "Prompt and lovedOneId are required"), []))
  ∧ (Js.truthy (prompt_of req) = true →
     Js.truthy (lovedOneId_of req) = true →
     Profiles.or_empty (lovedOneId_of req) ∉ Js.object_prototype_keys →
     post_generate_with_loved_one api_key service profiles req
     = (respond 404 (ErrorBody "Loved one not found"), [])).
Proof.
  intros Hnone. unfold post_generate_with_loved_one. split.
  - intros [-> | ->]; [done|]. by rewrite orb_true_r.
  - intros -> -> Hkey. simpl. by rewrite get_undefined.
Qed.

(** What the amended C7 leaves out: a lovedOneId that names an inherited
    property passes the 404 guard, and with a credential the request goes
    out, built from the builtin's fields. *)
Example inherited_key_reaches_the_service :
  post_generate_with_loved_one (Some "sk-test") Samples.service ∅
    Samples.beach_day_with_constructor
  = (respond 200
       (ImageBody "https://images.example/1.png"
          "beach day. The scene includes Object, undefined.  Create this as a vintage dreamlike polaroid photograph with surreal, ethereal qualities, soft focus, nostalgic muted tones, and a touch of the uncanny."
          (Some "Object")),
     [ {| bearer := "sk-test";
          out_prompt := "beach day. The scene includes Object, undefined.  Create this as a vintage dreamlike polaroid photograph with surreal, ethereal qualities, soft focus, nostalgic muted tones, and a touch of the uncanny." |} ]).
Proof.
  unfold post_generate_with_loved_one. simpl.
  rewrite get_inherited; [reflexivity|apply lookup_empty|].
  unfold Js.object_prototype_keys. set_solver.
Qed.
End UnknownProfile.

Lemma unknown_loved_one_no_outbound_call_witness :
  (∅ : gmap string Profile)
    !! Profiles.or_empty (Forwarder.lovedOneId_of Samples.beach_day) = None
  ∧ Forwarder.post_generate_with_loved_one (Some "sk-test") Samples.service ∅
      Samples.beach_day
    = (respond 404 (ErrorBody "Loved one not found"), []).
Proof.
  split; [apply lookup_empty|].
  apply (unknown_loved_one_no_outbound_call (Some "sk-test") Samples.service ∅
           Samples.beach_day (lookup_empty _)).
  - reflexivity.
  - reflexivity.
  - compute_done.
Defined.


Section Prompt.
Import Forwarder.

(** C8. For a prompt and a resolved profile, the string the forwarder
    builds is: the prompt, the sentence naming the profile's name and
    description, the sentence on the relationship when it is not empty (and
    nothing when it is), and the fixed suffix.  So the name and the
    description occur in it, the relationship sentence occurs in it when the
    relationship is not empty, and it ends with the suffix.  It is this
    string that the handler sends, in its one outbound request, when the
    request has a prompt, the id resolves to the profile and the credential
    is configured. *)
Theorem enhanced_prompt_interpolates_profile
    (prompt key : string) (p : Profile) (service : Outbound → Upstream)
    (profiles : gmap string Profile) (req : WithLovedOne) :
  let final :=
    enhancedPrompt prompt (Some (name p)) (Some (description p))
      (Some (relationship p)) in
  prompt_of req = Some prompt →
  prompt ≠ "" →
  Js.truthy (lovedOneId_of req) = true →
  profiles !! Profiles.or_empty (lovedOneId_of req) = Some p →
  key ≠ "" →
  occurs_in (name p) final
  ∧ occurs_in (description p) final
  ∧ (relationship p ≠ "" →
     occurs_in ("They were my " +:+ relationship p +:+ ".") final)
  ∧ (relationship p = "" →
     final = prompt +:+ ". The scene includes " +:+ name p +:+ ", "
               +:+ description p +:+ ". " +:+ stylistic_suffix)
  ∧ ends_with final stylistic_suffix
  ∧ (post_generate_with_loved_one (Some key) service profiles req).2
    = [ {| bearer := key; out_prompt := final |} ].
Proof.
  intros final Hprompt Hp Hid Hfound Hkey. subst final.
  split; [|split; [|split; [|split; [|split]]]].
  - exists (prompt +:+ ". The scene includes "). eexists.
    unfold enhancedPrompt. simpl. by rewrite !string_app_assoc.
  - exists (prompt +:+ ". The scene includes " +:+ name p +:+ ", "). eexists.
    unfold enhancedPrompt. simpl. by rewrite !string_app_assoc.
  - intros Hrel.
    exists (prompt +:+ ". The scene includes " +:+ name p +:+ ", "
              +:+ description p +:+ ". "), stylistic_suffix.
    unfold enhancedPrompt. rewrite (truthy_nonempty _ Hrel). simpl.
    by rewrite !string_app_assoc.
  - intros ->. reflexivity.
  - unfold ends_with, enhancedPrompt. eexists.
    rewrite <- !string_app_assoc. reflexivity.
  - unfold post_generate_with_loved_one.
    rewrite Hprompt, (truthy_nonempty _ Hp), Hid, (get_own _ _ _ Hfound),
      (truthy_nonempty _ Hkey).
    apply call_upstream_once.
Qed.
End Prompt.

(** The scenario of the testable properties: profile [Mom], prompt
    [beach day]. *)
Lemma enhanced_prompt_interpolates_profile_witness :
  Forwarder.prompt_of Samples.beach_day = Some "beach day"
  ∧ ({[ "1700000000123" := Samples.mom_profile ]} : gmap string Profile)
      !! "1700000000123" = Some Samples.mom_profile
  ∧ Forwarder.occurs_in "Mom"
      (Forwarder.enhancedPrompt "beach day" (Some "Mom") (Some "warm smile") (Some ""))
  ∧ Forwarder.occurs_in "warm smile"
      (Forwarder.enhancedPrompt "beach day" (Some "Mom") (Some "warm smile") (Some ""))
  ∧ Forwarder.ends_with
      (Forwarder.enhancedPrompt "beach day" (Some "Mom") (Some "warm smile") (Some ""))
      Forwarder.stylistic_suffix
  ∧ (Forwarder.post_generate_with_loved_one (Some "sk-test") Samples.service
       {[ "1700000000123" := Samples.mom_profile ]} Samples.beach_day).2
    = [ {| Forwarder.bearer := "sk-test";
           Forwarder.out_prompt := "beach day. The scene includes Mom, warm smile.  Create this as a vintage dreamlike polaroid photograph with surreal, ethereal qualities, soft focus, nostalgic muted tones, and a touch of the uncanny." |} ].
Proof.
  split; [reflexivity|]. split; [apply lookup_singleton_eq|].
  destruct (enhanced_prompt_interpolates_profile "beach day" "sk-test"
              Samples.mom_profile Samples.service
              {[ "1700000000123" := Samples.mom_profile ]} Samples.beach_day)
    as (Hname & Hdesc & _ & _ & Hend & Hsent);
    [reflexivity | discriminate | reflexivity | apply lookup_singleton_eq
    | discriminate |].
  split; [exact Hname|]. split; [exact Hdesc|]. split; [exact Hend|].
  exact Hsent.
Defined.


(** * Further properties of the handlers *)

(** ** Strings: prefixes, occurrences, lower case *)

Section Strings.
Import Photos.

Lemma string_app_nil_r s : s +:+ "" = s.
Proof. induction s as [|c s IH]; [reflexivity|]. by rewrite string_app_cons, IH. Qed.

Lemma prefix_spec sub s : String.prefix sub s = true ↔ ∃ back, s = sub +:+ back.
Proof.
  revert sub. induction s as [|c s IH]; intros [|a sub]; simpl.
  - split; [by exists ""|done].
  - split; [done|]. by intros [back [=]].
  - split; [by eexists|done].
  - destruct (ascii_dec a c) as [->|Hne].
    + rewrite IH. split.
      * intros [back ->]. by exists back.
      * intros [back Hb]. rewrite string_app_cons in Hb.
        injection Hb as ->. by exists back.
    + split; [done|]. intros [back Hb]. rewrite string_app_cons in Hb.
      by injection Hb as -> _.
Qed.

(** [includes] finds exactly the occurrences. *)
Lemma includes_spec s sub :
  includes s sub = true ↔ Forwarder.occurs_in sub s.
Proof.
  unfold Forwarder.occurs_in. induction s as [|c s IH].
  - cbn [includes]. rewrite orb_false_r, prefix_spec. split.
    + intros [back ->]. by exists "", back.
    + intros ([|a front] & back & H).
      * by exists back.
      * by rewrite string_app_cons in H.
  - cbn [includes]. rewrite orb_true_iff, prefix_spec, IH. split.
    + intros [[back ->]|(front & back & ->)].
      * by exists "", back.
      * by exists (String c front), back.
    + intros ([|a front] & back & H).
      * left. by exists back.
      * right. rewrite string_app_cons in H. injection H as -> ->.
        by exists front, back.
Qed.

Lemma lower_ascii_idemp c : lower_ascii (lower_ascii c) = lower_ascii c.
Proof.
  destruct c as [[] [] [] [] [] [] [] []]; reflexivity.
Qed.

Lemma toLowerCase_idemp s : toLowerCase (toLowerCase s) = toLowerCase s.
Proof.
  induction s as [|c s IH]; [reflexivity|].
  simpl. by rewrite lower_ascii_idemp, IH.
Qed.

Lemma allowedTypes_spec s :
  allowedTypes s = true
  ↔ ∃ t, t ∈ Chars.alternatives ∧ Forwarder.occurs_in t s.
Proof.
  unfold allowedTypes, Chars.alternatives.
  rewrite !orb_true_iff, !includes_spec. split.
  - intros [[[H|H]|H]|H]; eexists; (split; [|exact H]); set_solver.
  - intros (t & Ht & H). rewrite !elem_of_cons, elem_of_nil in Ht.
    destruct Ht as [->|[->|[->|[->|[]]]]]; auto.
Qed.
End Strings.

(** ** The upload configuration *)

Section Uploads.
Import Photos.

(** X11. The filter lets a file through exactly when one of the four type names
    occurs somewhere in its extension, lower-cased, and one occurs somewhere
    in its declared content type, as written.  The test is unanchored (any
    surrounding text is accepted) and, on the extension only, blind to
    case. *)
Theorem fileFilter_accepts_iff (file : Upload) :
  (fileFilter file = true
   ↔ (∃ t, t ∈ Chars.alternatives
           ∧ Forwarder.occurs_in t (toLowerCase (extname file)))
     ∧ (∃ t, t ∈ Chars.alternatives ∧ Forwarder.occurs_in t (mimetype file)))
  ∧ fileFilter
      {| extname := toLowerCase (extname file); mimetype := mimetype file;
         size := size file; stamp := stamp file; random := random file |}
    = fileFilter file.
Proof.
  unfold fileFilter. split.
  - rewrite andb_true_iff, !allowedTypes_spec. tauto.
  - simpl. by rewrite toLowerCase_idemp.
Qed.

Lemma pretty_N_char_is_digit d : Chars.is_digit (pretty_N_char d) = true.
Proof. unfold pretty_N_char. by repeat case_match. Qed.

Lemma pretty_N_go_digits x s :
  Chars.digits_only s = true → Chars.digits_only (pretty_N_go x s) = true.
Proof.
  revert s. induction (N.lt_wf_0 x) as [x _ IH]; intros s Hs.
  destruct (decide (x = 0)%N) as [->|Hx].
  - by rewrite pretty_N_go_0.
  - rewrite pretty_N_go_step by lia.
    apply IH; [apply N.div_lt; lia|].
    simpl. by rewrite pretty_N_char_is_digit.
Qed.

(** A printed number is made of digits only. *)
Lemma pretty_N_digits (x : N) : Chars.digits_only (pretty x) = true.
Proof.
  unfold pretty, pretty_N. case_decide; [done|].
  by apply pretty_N_go_digits.
Qed.

(** A run of digits followed by a stop is read in one way only. *)
Lemma digit_prefix_unique d1 d2 t1 t2 :
  Chars.digits_only d1 = true → Chars.digits_only d2 = true →
  Chars.stops t1 → Chars.stops t2 →
  d1 +:+ t1 = d2 +:+ t2 → d1 = d2 ∧ t1 = t2.
Proof.
  revert d2. induction d1 as [|c1 d1 IH]; intros [|c2 d2] H1 H2 S1 S2 Heq.
  - done.
  - exfalso. change ("" +:+ t1) with t1 in Heq. subst t1.
    rewrite string_app_cons in S1. simpl in S1, H2.
    apply andb_true_iff in H2 as [H2 _]. congruence.
  - exfalso. change ("" +:+ t2) with t2 in Heq. subst t2.
    rewrite string_app_cons in S2. simpl in S2, H1.
    apply andb_true_iff in H1 as [H1 _]. congruence.
  - rewrite !string_app_cons in Heq. injection Heq as -> Heq.
    simpl in H1, H2.
    apply andb_true_iff in H1 as [_ H1]. apply andb_true_iff in H2 as [_ H2].
    destruct (IH d2 H1 H2 S1 S2 Heq) as [-> ->]. done.
Qed.

Lemma extname_stops e : Chars.is_extname e → Chars.stops e.
Proof. by intros [->|[rest ->]]. Qed.

(** X12. Two uploads get the same stored name only when they were named at the
    same millisecond, with the same random draw, and carry the same
    extension; so do their access paths. *)
Theorem filename_collides_only_on_equal_draws (f1 f2 : Upload) :
  Chars.is_extname (extname f1) → Chars.is_extname (extname f2) →
  access_path (filename f1) = access_path (filename f2) →
  filename f1 = filename f2
  ∧ stamp f1 = stamp f2 ∧ random f1 = random f2 ∧ extname f1 = extname f2.
Proof.
  intros He1 He2 Hpath.
  assert (filename f1 = filename f2) as Hname.
  { unfold access_path in Hpath. by apply (inj (String.app _)) in Hpath. }
  split; [done|].
  unfold filename, uniqueSuffix in Hname. rewrite !string_app_assoc in Hname.
  apply digit_prefix_unique in Hname as [Hstamp Hrest];
    [| apply pretty_N_digits | apply pretty_N_digits | done | done].
  rewrite !string_app_cons in Hrest. injection Hrest as Hrest.
  change ("" +:+ ?x) with x in Hrest.
  apply digit_prefix_unique in Hrest as [Hrandom Hext];
    [| apply pretty_N_digits | apply pretty_N_digits
     | by apply extname_stops | by apply extname_stops].
  split; [by apply (inj pretty)|]. split; [by apply (inj pretty)|done].
Qed.

Lemma store_files_accepts_iff n files written disk :
  (∃ names disk', store_files n files written disk = (inr names, disk'))
  ↔ length files ≤ n ∧ Forall storable files.
Proof.
  split.
  - revert n written disk.
    induction files as [|f files IH]; intros n written disk (names & disk' & H).
    + split; [simpl; lia|constructor].
    + simpl in H. destruct n as [|n]; [done|].
      destruct (fileFilter f) eqn:Hf; [|done]. simpl in H.
      destruct (N.ltb_spec fileSize_limit (size f)) as [|Hsize]; [done|].
      destruct (IH n _ _ (ex_intro _ names (ex_intro _ disk' H))) as [Hlen Hall].
      split; [simpl; lia|]. constructor; [by split|done].
  - intros [Hlen Hall]. eexists _, _. by apply store_files_storable.
Qed.

(** X13. The upload middleware hands a request to the route callback exactly
    when it has at most ten files and each passes the filter and is at most
    5 MiB; any other request is answered 500 by the error handler and
    stores no profile. *)
Theorem upload_hands_over_iff
    (clock : Profiles.Clock) (body : Profiles.CreateBody)
    (files : list Upload) (st : Profiles.Store) :
  ((∃ names disk, upload_array 10 files (Profiles.uploads st) = (inr names, disk))
   ↔ length files ≤ 10 ∧ Forall storable files)
  ∧ (¬ (length files ≤ 10 ∧ Forall storable files) →
     status (Profiles.post_loved_one clock body files st).1 = 500
     ∧ Profiles.lovedOnes (Profiles.post_loved_one clock body files st).2
       = Profiles.lovedOnes st).
Proof.
  split; [apply store_files_accepts_iff|].
  intros Hbad. unfold Profiles.post_loved_one.
  destruct (upload_array _ _ _) as [[message|names] disk] eqn:Hup; [done|].
  exfalso. apply Hbad. apply (store_files_accepts_iff 10 files [] (Profiles.uploads st)).
  by eexists _, _.
Qed.
End Uploads.

Lemma filename_collides_only_on_equal_draws_witness :
  Chars.is_extname (Photos.extname Samples.img)
  ∧ Chars.is_extname (Photos.extname Cases.png)
  ∧ (Photos.access_path (Photos.filename Samples.img)
     = Photos.access_path (Photos.filename Cases.png) →
     Photos.stamp Samples.img = Photos.stamp Cases.png).
Proof.
  assert (Chars.is_extname (Photos.extname Samples.img)) as H1
    by (right; eexists; reflexivity).
  assert (Chars.is_extname (Photos.extname Cases.png)) as H2
    by (right; eexists; reflexivity).
  split; [exact H1|]. split; [exact H2|].
  intros Hpath.
  apply (filename_collides_only_on_equal_draws Samples.img Cases.png H1 H2 Hpath).
Defined.

Lemma upload_hands_over_iff_witness :
  ¬ (length [Samples.img; Cases.gif] ≤ 10
     ∧ Forall Photos.storable [Samples.img; Cases.gif])
  ∧ status (Profiles.post_loved_one Samples.clock Samples.mom
              [Samples.img; Cases.gif] Profiles.empty).1 = 500.
Proof.
  assert (¬ (length [Samples.img; Cases.gif] ≤ 10
             ∧ Forall Photos.storable [Samples.img; Cases.gif])) as Hbad.
  { intros [_ Hall]. apply Forall_cons in Hall as [_ Hall].
    apply Forall_cons in Hall as [[Hf _] _]. vm_compute in Hf. discriminate. }
  split; [exact Hbad|].
  apply (upload_hands_over_iff Samples.clock Samples.mom
           [Samples.img; Cases.gif] Profiles.empty).
  exact Hbad.
Defined.

(** ** The profile store over sequences of requests *)

Section StoreLifecycle.
Import Profiles Lifecycle.

Lemma create_keeps_records_ok clock body names (profiles : gmap string Profile) :
  length names ≤ 10 →
  map_Forall record_ok profiles →
  map_Forall record_ok (create clock body names profiles).2.
Proof.
  intros Hlen Hok. unfold create.
  destruct (Js.truthy (body_name body)) eqn:Hn; [|done].
  destruct (Js.truthy (body_description body)) eqn:Hd; [|done].
  destruct names as [|f names]; [done|]. simpl.
  apply truthy_Some in Hn as (n & -> & Hn).
  apply truthy_Some in Hd as (d & -> & Hd).
  apply map_Forall_insert_2; [|done].
  repeat split; simpl; try done; [by eexists|lia|].
  rewrite length_fmap. simpl in Hlen. lia.
Qed.

Lemma handle_keeps_records_ok r st :
  map_Forall record_ok (lovedOnes st) →
  map_Forall record_ok (lovedOnes (handle r st).2).
Proof.
  intros Hok. destruct r as [clock body files|key]; simpl.
  - unfold post_loved_one, Photos.upload_array.
    destruct (Photos.store_files _ _ _ _) as [[message|names] disk] eqn:Hup;
      [done|].
    assert (length files ≤ 10) as Hlen.
    { apply (store_files_accepts_iff 10 files [] (uploads st)). by eexists _, _. }
    apply store_files_handed_over in Hup as [-> ->]. simpl.
    pose proof (create_keeps_records_ok clock body (Photos.filename <$> files)
                  (lovedOnes st)) as Hcreate.
    destruct (create _ _ _ _) as [response profiles]. simpl in *.
    apply Hcreate; [by rewrite length_fmap|done].
  - unfold delete_loved_one. destruct (Js.get _ _); simpl; try done.
    by apply map_Forall_delete.
Qed.

Lemma run_keeps_records_ok rs st :
  map_Forall record_ok (lovedOnes st) →
  map_Forall record_ok (lovedOnes (run rs st)).
Proof.
  revert st. induction rs as [|r rs IH]; intros st Hok; [done|].
  apply IH. by apply handle_keeps_records_ok.
Qed.

(** X5. Whatever creates and deletes were served since startup, in whatever
    order and with whatever outcome, every record in the store sits under
    its own id, that id is a printed number, name and description are not
    empty and the record has between one and ten photos. *)
Theorem store_records_stay_well_formed (rs : list Request) :
  map_Forall record_ok (lovedOnes (run rs empty)).
Proof. apply run_keeps_records_ok. apply map_Forall_empty. Qed.

(** X6. In a store reached from the empty one, deleting any stored id answers
    200, leaves none of the profile's photos on disk, and the id is then
    unknown to both get and delete: the ids in use never meet a name
    inherited from the prototype. *)
Theorem reachable_delete_then_unknown (rs : list Request) (key : string) (p : Profile) :
  lovedOnes (run rs empty) !! key = Some p →
  get_loved_one key (run rs empty) = respond 200 (LovedOneBody p)
  ∧ (delete_loved_one key (run rs empty)).1 = respond 200 DeletedBody
  ∧ (∀ path, path ∈ photos p →
       path ∉ uploads (delete_loved_one key (run rs empty)).2)
  ∧ get_loved_one key (delete_loved_one key (run rs empty)).2
    = respond 404 (ErrorBody "Loved one not found")
  ∧ (delete_loved_one key (delete_loved_one key (run rs empty)).2).1
    = respond 404 (ErrorBody "Loved one not found").
Proof.
  intros Hp.
  assert (key ∉ Js.object_prototype_keys) as Hkey.
  { destruct (run_keeps_records_ok rs empty (map_Forall_empty _) key p Hp)
      as (_ & [n ->] & _).
    apply printed_id_not_inherited. }
  destruct (delete_stored _ _ _ Hp Hkey) as (H200 & _ & Hgone & _ & H404 & Hagain).
  split; [|split; [done|split; [done|split; [done|]]]].
  - unfold get_loved_one. by rewrite (get_own _ _ _ Hp).
  - by rewrite Hagain.
Qed.
End StoreLifecycle.

Lemma reachable_delete_then_unknown_witness :
  Profiles.lovedOnes (Lifecycle.run [Cases.create_mom_request] Profiles.empty)
    !! "1700000000123" = Some Samples.mom_profile
  ∧ Profiles.get_loved_one "1700000000123"
      (Profiles.delete_loved_one "1700000000123"
         (Lifecycle.run [Cases.create_mom_request] Profiles.empty)).2
    = respond 404 (ErrorBody "Loved one not found").
Proof.
  assert (Profiles.lovedOnes (Lifecycle.run [Cases.create_mom_request] Profiles.empty)
            !! "1700000000123" = Some Samples.mom_profile) as Hstored.
  { change (Lifecycle.run [Cases.create_mom_request] Profiles.empty)
      with (Profiles.post_loved_one Samples.clock Samples.mom [Samples.img]
              Profiles.empty).2.
    rewrite create_mom. apply lookup_singleton_eq. }
  split; [exact Hstored|].
  apply (reachable_delete_then_unknown [Cases.create_mom_request]
           "1700000000123" Samples.mom_profile Hstored).
Defined.

(** ** Round trips on the profile store *)

Section RoundTrips.
Import Profiles.

(** The run of an accepted create request, in one equation. *)
Lemma post_loved_one_accepted clock body files st :
  Js.truthy (body_name body) = true →
  Js.truthy (body_description body) = true →
  files ≠ [] → length files ≤ 10 → Forall Photos.storable files →
  let lovedOne :=
    {| id := pretty (now_ms clock);
       name := or_empty (body_name body);
       description := or_empty (body_description body);
       relationship := or_empty (body_relationship body);
       photos := Photos.access_path <$> (Photos.filename <$> files);
       createdAt := now_iso clock |} in
  post_loved_one clock body files st
  = (respond 200 (LovedOneBody lovedOne),
     {| lovedOnes := <[pretty (now_ms clock) := lovedOne]> (lovedOnes st);
        uploads := list_to_set (photos lovedOne) ∪ uploads st |}).
Proof.
  intros Hn Hd Hne Hlen Hall lovedOne.
  unfold post_loved_one, Photos.upload_array.
  rewrite store_files_storable by done. simpl.
  rewrite create_stored; [done..|].
  by destruct files.
Qed.

(** X7. Create, then read.  A request with a name, a description and between
    one and ten files the upload accepts is answered 200 with a record that
    a get of its id returns as it is, that the listing contains, and whose
    photos, one per uploaded file and in their order, are all on disk. *)
Theorem create_then_get
    (clock : Clock) (body : CreateBody) (files : list Photos.Upload) (st : Store) :
  Js.truthy (body_name body) = true →
  Js.truthy (body_description body) = true →
  files ≠ [] → length files ≤ 10 → Forall Photos.storable files →
  ∃ lovedOne,
    (post_loved_one clock body files st).1 = respond 200 (LovedOneBody lovedOne)
    ∧ get_loved_one (id lovedOne) (post_loved_one clock body files st).2
      = respond 200 (LovedOneBody lovedOne)
    ∧ lovedOne ∈ list_loved_ones (post_loved_one clock body files st).2
    ∧ photos lovedOne = Photos.access_path <$> (Photos.filename <$> files)
    ∧ (∀ path, path ∈ photos lovedOne →
         path ∈ uploads (post_loved_one clock body files st).2).
Proof.
  intros Hn Hd Hne Hlen Hall.
  pose proof (post_loved_one_accepted clock body files st Hn Hd Hne Hlen Hall) as Hrun.
  simpl in Hrun. rewrite Hrun. eexists. split; [reflexivity|]. simpl.
  split; [|split; [|split; [done|]]].
  - unfold get_loved_one. simpl. by rewrite (get_own _ _ _ (lookup_insert_eq _ _ _)).
  - unfold list_loved_ones. simpl. apply list_elem_of_fmap.
    eexists (_, _). split; [reflexivity|].
    apply elem_of_map_to_list. apply lookup_insert_eq.
  - intros path Hin. set_solver.
Qed.

(** X8. Create, then delete.  When the id printed from the clock is not yet in
    use and none of the generated file names is on disk, deleting the
    profile just created answers 200 and brings the store back to what it
    was: record and files are gone, nothing else has changed. *)
Theorem create_then_delete_restores
    (clock : Clock) (body : CreateBody) (files : list Photos.Upload) (st : Store) :
  Js.truthy (body_name body) = true →
  Js.truthy (body_description body) = true →
  files ≠ [] → length files ≤ 10 → Forall Photos.storable files →
  lovedOnes st !! pretty (now_ms clock) = None →
  (∀ f, f ∈ files → Photos.access_path (Photos.filename f) ∉ uploads st) →
  delete_loved_one (pretty (now_ms clock)) (post_loved_one clock body files st).2
  = (respond 200 DeletedBody, st).
Proof.
  intros Hn Hd Hne Hlen Hall Hfresh Hdisk.
  pose proof (post_loved_one_accepted clock body files st Hn Hd Hne Hlen Hall) as Hrun.
  simpl in Hrun. rewrite Hrun. unfold delete_loved_one. simpl.
  rewrite (get_own _ _ _ (lookup_insert_eq _ _ _)). simpl.
  rewrite unlink_photos_difference, delete_insert_eq, delete_id by done.
  destruct st as [profiles disk]. simpl in *. f_equal. f_equal.
  apply set_eq. intros path. rewrite elem_of_difference, elem_of_union.
  split; [tauto|]. intros Hin. split; [by right|].
  rewrite elem_of_list_to_set, <- list_fmap_compose, list_elem_of_fmap.
  intros (f & -> & Hf). by apply (Hdisk f Hf).
Qed.

(** X9. The listing holds exactly the stored records, once per id.  A create
    under an id not yet in use adds its record to the listing and a delete
    of a stored id takes its record out, the rest staying as it was, up to
    order. *)
Theorem listing_tracks_store (st : Store) :
  (∀ p, p ∈ list_loved_ones st ↔ ∃ key, lovedOnes st !! key = Some p)
  ∧ length (list_loved_ones st) = size (lovedOnes st)
  ∧ (∀ clock body names p profiles',
       lovedOnes st !! pretty (now_ms clock) = None →
       create clock body names (lovedOnes st)
       = (respond 200 (LovedOneBody p), profiles') →
       list_loved_ones {| lovedOnes := profiles'; uploads := uploads st |}
       ≡ₚ p :: list_loved_ones st)
  ∧ (∀ key p,
       lovedOnes st !! key = Some p →
       p :: list_loved_ones (delete_loved_one key st).2 ≡ₚ list_loved_ones st).
Proof.
  unfold list_loved_ones. split; [|split; [|split]].
  - intros p. rewrite list_elem_of_fmap. split.
    + intros ([key q] & -> & Hin). exists key. by apply elem_of_map_to_list.
    + intros [key Hkey]. exists (key, p). split; [done|].
      by apply elem_of_map_to_list.
  - by rewrite length_fmap, length_map_to_list.
  - intros clock body names p profiles' Hfresh Hc.
    apply create_success_inv in Hc as [Hid ->]. simpl.
    rewrite Hid, map_to_list_insert by done. done.
  - intros key p Hp. unfold delete_loved_one.
    rewrite (get_own _ _ _ Hp). simpl.
    by rewrite <- (map_to_list_delete _ _ _ Hp).
Qed.
End RoundTrips.

Lemma create_then_get_witness :
  Js.truthy (Profiles.body_name Samples.mom) = true
  ∧ Forall Photos.storable [Samples.img]
  ∧ ∃ lovedOne,
      (Profiles.post_loved_one Samples.clock Samples.mom [Samples.img]
         Profiles.empty).1 = respond 200 (LovedOneBody lovedOne)
      ∧ Profiles.get_loved_one (id lovedOne)
          (Profiles.post_loved_one Samples.clock Samples.mom [Samples.img]
             Profiles.empty).2
        = respond 200 (LovedOneBody lovedOne).
Proof.
  assert (Forall Photos.storable [Samples.img]) as Hall
    by (repeat constructor; vm_compute; congruence).
  split; [reflexivity|]. split; [exact Hall|].
  destruct (create_then_get Samples.clock Samples.mom [Samples.img] Profiles.empty)
    as (lovedOne & H1 & H2 & _); [reflexivity|reflexivity|discriminate|simpl; lia|exact Hall|].
  exists lovedOne. split; [exact H1|exact H2].
Defined.

Lemma create_then_delete_restores_witness :
  Profiles.lovedOnes Profiles.empty !! pretty (Profiles.now_ms Samples.clock) = None
  ∧ Profiles.delete_loved_one (pretty (Profiles.now_ms Samples.clock))
      (Profiles.post_loved_one Samples.clock Samples.mom [Samples.img]
         Profiles.empty).2
    = (respond 200 DeletedBody, Profiles.empty).
Proof.
  split; [apply lookup_empty|].
  apply (create_then_delete_restores Samples.clock Samples.mom [Samples.img]
           Profiles.empty).
  - reflexivity.
  - reflexivity.
  - discriminate.
  - simpl. lia.
  - repeat constructor; vm_compute; congruence.
  - apply lookup_empty.
  - intros f _. apply not_elem_of_empty.
Defined.

Lemma listing_tracks_store_witness :
  Profiles.lovedOnes Cases.with_mom !! "1700000000123" = Some Samples.mom_profile
  ∧ Samples.mom_profile
      :: Profiles.list_loved_ones
           (Profiles.delete_loved_one "1700000000123" Cases.with_mom).2
    ≡ₚ Profiles.list_loved_ones Cases.with_mom.
Proof.
  assert (Profiles.lovedOnes Cases.with_mom !! "1700000000123"
          = Some Samples.mom_profile) as Hstored by apply lookup_singleton_eq.
  split; [exact Hstored|].
  apply (listing_tracks_store Cases.with_mom). exact Hstored.
Defined.

(** ** Removing photo files *)

Section Unlink.
Import Profiles.

(** X10. Removing a profile's photos takes exactly the listed paths off the
    disk: a listed path is gone whether or not it was there, any other path
    is there exactly when it was before.  Doing it again changes nothing,
    and so does doing it when none of the files exists. *)
Theorem unlink_photos_removes_exactly (photos : list string) (disk : gset string) :
  (∀ path, path ∈ unlink_photos photos disk ↔ path ∈ disk ∧ path ∉ photos)
  ∧ unlink_photos photos (unlink_photos photos disk) = unlink_photos photos disk
  ∧ ((∀ path, path ∈ photos → path ∉ disk) → unlink_photos photos disk = disk).
Proof.
  rewrite !unlink_photos_difference. split; [|split].
  - intros path. set_solver.
  - set_solver.
  - intros Hmissing. set_solver.
Qed.
End Unlink.

Lemma unlink_photos_removes_exactly_witness :
  (∀ path, path ∈ [Samples.img_path] → path ∉ (∅ : gset string))
  ∧ Profiles.unlink_photos [Samples.img_path] ∅ = ∅.
Proof.
  assert (∀ path, path ∈ [Samples.img_path] → path ∉ (∅ : gset string)) as Hmissing
    by (intros path _; apply not_elem_of_empty).
  split; [exact Hmissing|].
  apply (unlink_photos_removes_exactly [Samples.img_path] ∅). exact Hmissing.
Defined.


(** ** More on the AR session log *)

Section ArLogMore.
Import ArLog.

Lemma slice_last_snoc {A} n (l : list A) x :
  1 ≤ n →
  last (Js.slice_last n (l ++ [x])) = Some x
  ∧ 1 ≤ length (Js.slice_last n (l ++ [x])) ≤ n.
Proof.
  intros Hn. split.
  - unfold Js.slice_last. rewrite length_app. simpl.
    rewrite drop_app_le by lia. apply last_snoc.
  - rewrite slice_last_length_eq, length_app. simpl. lia.
Qed.

(** X1. An acknowledged append is in the log.  Whatever the state of the file
    and the outcome of the read, when the answer is 200 the request had a
    sessionId, the write went through, the record of the request with its
    time stamp is the last of the persisted sequence, and the count in the
    answer is the length of that sequence, between 1 and 1000. *)
Theorem acknowledged_append_is_last
    (io : Io) (now : string) (req : option SessionData) (file : Document) :
  status (post_session io now req file).1 = 200 →
  ∃ d,
    req = Some d
    ∧ Js.truthy (sessionId d) = true
    ∧ write io = Written
    ∧ last (persisted (post_session io now req file).2)
      = Some {| data := d; savedAt := now |}
    ∧ body (post_session io now req file).1
      = SessionSaved (length (persisted (post_session io now req file).2))
    ∧ 1 ≤ length (persisted (post_session io now req file).2) ≤ 1000.
Proof.
  unfold post_session. destruct req as [d|]; [|done].
  destruct (Js.truthy (sessionId d)) eqn:Hid; [|done]. simpl.
  destruct (readARSessions io file) as [sessions|json]; [|done].
  unfold writeARSessions. destruct (write io) eqn:Hw; try done. simpl.
  intros _. exists d.
  destruct (slice_last_snoc 1000 sessions
              {| data := d; savedAt := now |}) as [Hlast Hlen]; [lia|].
  done.
Qed.

Lemma post_session_refused_inert c file :
  ArRuns.validated c = false →
  (post_session (io_of c) (now_of c) (req_of c) file).2 = file.
Proof.
  unfold ArRuns.validated, post_session.
  destruct (req_of c) as [d|]; [|done]. by intros ->.
Qed.

(** X2. The four answers of an append.  400 exactly when the body has no
    truthy sessionId, and then the file is not touched whatever the I/O
    would have done.  Otherwise the file is read: when what is found under
    [sessions] is no array the answer is the 500 of the handler's own catch
    and the file is not touched; when it is an array (or the read failed,
    which gives the empty array) the answer is 200 exactly when the write
    went through and the 500 of the failed save exactly when it did not. *)
Theorem post_session_answers
    (io : Io) (now : string) (req : option SessionData) (file : Document) :
  let call := {| io_of := io; now_of := now; req_of := req |} in
  let array_read := ∃ sessions, readARSessions io file = Records sessions in
  (status (post_session io now req file).1 = 400 ↔ ArRuns.validated call = false)
  ∧ (ArRuns.validated call = false →
     post_session io now req file
     = (respond 400 (ErrorBody "Invalid session data"), file))
  ∧ (status (post_session io now req file).1 = 200
     ↔ ArRuns.validated call = true ∧ array_read ∧ write io = Written)
  ∧ ((post_session io now req file).1
     = respond 500 (ErrorBody "Failed to save session")
     ↔ ArRuns.validated call = true ∧ array_read ∧ write io ≠ Written)
  ∧ ((post_session io now req file).1
     = respond 500 (ErrorBody "Internal server error")
     ↔ ArRuns.validated call = true ∧ ¬ array_read)
  ∧ (ArRuns.validated call = true → ¬ array_read →
     (post_session io now req file).2 = file)
  ∧ (status (post_session io now req file).1 = 500
     ↔ ArRuns.validated call = true ∧ (¬ array_read ∨ write io ≠ Written)).
Proof.
  unfold post_session, ArRuns.validated. simpl.
  destruct req as [d|]; [|naive_solver].
  destruct (Js.truthy (sessionId d)); simpl; [|naive_solver].
  destruct (readARSessions io file) as [sessions|json].
  - unfold writeARSessions.
    destruct (write io); simpl; naive_solver.
  - simpl. naive_solver.
Qed.

(** X3. Requests refused by validation leave no trace: the document after a
    run of appends is the document after the same run without the refused
    requests. *)
Theorem refused_appends_are_skipped (calls : list Append) (file : Document) :
  run_appends calls file = run_appends (filter (λ c, ArRuns.validated c = true) calls) file.
Proof.
  revert file. induction calls as [|c calls IH]; intros file; [done|].
  rewrite filter_cons. destruct (decide (ArRuns.validated c = true)) as [Hv|Hv].
  - unfold run_appends. simpl. apply IH.
  - apply not_true_is_false in Hv.
    unfold run_appends at 1. simpl.
    rewrite (post_session_refused_inert c file Hv). apply IH.
Qed.
End ArLogMore.

Lemma acknowledged_append_is_last_witness :
  status (ArLog.post_session Samples.read_error "2024-01-01T00:00:00.000Z"
            (Some Samples.session) (ArLog.Sessions [Samples.append_record 0])).1
  = 200
  ∧ ∃ d,
      Some Samples.session = Some d
      ∧ last (ArLog.persisted
                (ArLog.post_session Samples.read_error "2024-01-01T00:00:00.000Z"
                   (Some Samples.session)
                   (ArLog.Sessions [Samples.append_record 0])).2)
        = Some {| data := d; savedAt := "2024-01-01T00:00:00.000Z" |}.
Proof.
  split; [reflexivity|].
  destruct (acknowledged_append_is_last Samples.read_error
              "2024-01-01T00:00:00.000Z" (Some Samples.session)
              (ArLog.Sessions [Samples.append_record 0]) eq_refl)
    as (d & Hreq & _ & _ & Hlast & _).
  exists d. split; [exact Hreq|exact Hlast].
Defined.

Section ArLogClear.
Import ArLog.

(** X4. Clear, then list.  When the write goes through, clearing answers 200
    and leaves the empty document: a listing then returns the empty
    sequence with count 0 whatever the read does, and the accepted appends
    that follow are kept from the first one on, up to the last 1000. *)
Theorem clear_then_list_is_empty (io : Io) (file : Document) :
  write io = Written →
  delete_sessions io file = (respond 200 ClearedBody, Sessions [])
  ∧ (∀ io', get_sessions io' (delete_sessions io file).2
            = respond 200 (SessionList [] 0))
  ∧ (∀ calls, Forall accepted calls →
       persisted (run_appends calls (delete_sessions io file).2)
       = Js.slice_last 1000 (appended calls)).
Proof.
  intros Hw.
  assert (delete_sessions io file = (respond 200 ClearedBody, Sessions [])) as ->.
  { unfold delete_sessions, writeARSessions. by rewrite Hw. }
  split; [done|]. split.
  - intros io'. unfold get_sessions, readARSessions. simpl.
    by destruct (read_ok io').
  - intros calls Hall. simpl.
    rewrite run_appends_accepted by (done || simpl; lia). done.
Qed.
End ArLogClear.

Lemma clear_then_list_is_empty_witness :
  ArLog.write ArLog.healthy = ArLog.Written
  ∧ ArLog.get_sessions ArLog.healthy
      (ArLog.delete_sessions ArLog.healthy
         (ArLog.Sessions [Samples.append_record 0])).2
    = respond 200 (SessionList [] 0).
Proof.
  split; [reflexivity|].
  apply (clear_then_list_is_empty ArLog.healthy
           (ArLog.Sessions [Samples.append_record 0]) eq_refl).
Defined.

(** ** More on the forwarder *)

Section ForwarderMore.
Import Forwarder.

(** X14. Neither handler ever issues more than one outbound request, and it
    issues none unless the request has a prompt and the credential is
    configured; the request sent carries that credential as its bearer
    token.  [generate-with-loved-one] moreover sends nothing unless it was
    given a lovedOneId. *)
Theorem outbound_calls_need_prompt_and_credential
    (api_key : option string) (service : Outbound → Upstream) :
  (∀ prompt,
     let sent := (post_generate api_key service prompt).2 in
     length sent ≤ 1
     ∧ (sent ≠ [] → Js.truthy prompt = true ∧ Js.truthy api_key = true)
     ∧ (∀ request, request ∈ sent → Some (bearer request) = api_key))
  ∧ (∀ (profiles : gmap string Profile) req,
     let sent := (post_generate_with_loved_one api_key service profiles req).2 in
     length sent ≤ 1
     ∧ (sent ≠ [] →
        Js.truthy (prompt_of req) = true
        ∧ Js.truthy (lovedOneId_of req) = true
        ∧ Js.truthy api_key = true)
     ∧ (∀ request, request ∈ sent → Some (bearer request) = api_key)).
Proof.
  assert (∀ final lovedOneName request,
    Js.truthy api_key = true →
    request ∈ (call_upstream (Profiles.or_empty api_key) service final lovedOneName).2 →
    Some (bearer request) = api_key) as Hbearer.
  { intros final lovedOneName request Hkey. rewrite call_upstream_once.
    intros ->%list_elem_of_singleton. simpl.
    apply truthy_Some in Hkey as (k & -> & _). done. }
  split.
  - intros prompt. unfold post_generate.
    destruct (Js.truthy prompt) eqn:Hp; simpl.
    2:{ split; [lia|]. split; [done|]. by intros ? ?%elem_of_nil. }
    destruct (Js.truthy api_key) eqn:Hk; simpl.
    2:{ split; [lia|]. split; [done|]. by intros ? ?%elem_of_nil. }
    rewrite call_upstream_once. split; [simpl; lia|]. split; [done|].
    intros request Hin. apply (Hbearer (styledPrompt (Profiles.or_empty prompt)) None).
    + done.
    + by rewrite call_upstream_once.
  - intros profiles req. unfold post_generate_with_loved_one.
    destruct (Js.truthy (prompt_of req)) eqn:Hp; simpl.
    2:{ split; [lia|]. split; [done|]. by intros ? ?%elem_of_nil. }
    destruct (Js.truthy (lovedOneId_of req)) eqn:Hi; simpl.
    2:{ split; [lia|]. split; [done|]. by intros ? ?%elem_of_nil. }
    destruct (Js.get _ _) as [p|k|] eqn:Hget.
    3:{ simpl. split; [lia|]. split; [done|]. by intros ? ?%elem_of_nil. }
    all: destruct (Js.truthy api_key) eqn:Hk; simpl;
      [| split; [lia|]; split; [done|]; by intros ? ?%elem_of_nil ].
    all: split; [rewrite call_upstream_once; simpl; lia|]; split; [done|].
    all: intros request Hin; by eapply Hbearer.
Qed.
End ForwarderMore.

Section ForwarderRelay.
Import Forwarder.

(** X15. Both routes send a prompt that begins with the user's own words and
    asks for the same style, whatever the prompt and the profile: the style
    text occurs in the prompt of [generate], where it ends it, and in the
    prompt of [generate-with-loved-one]. *)
Theorem both_routes_ask_for_the_same_style
    (prompt : string) (name description relationship : option string) :
  Style.begins_with (styledPrompt prompt) prompt
  ∧ ends_with (styledPrompt prompt) Style.text
  ∧ Style.begins_with (enhancedPrompt prompt name description relationship) prompt
  ∧ occurs_in Style.text (enhancedPrompt prompt name description relationship).
Proof.
  split; [by eexists|]. split.
  { exists (prompt +:+ ", as "). by rewrite string_app_assoc. }
  split; [by eexists|].
  unfold enhancedPrompt, stylistic_suffix.
  eexists (prompt +:+ ". The scene includes " +:+ Js.print name +:+ ", "
             +:+ Js.print description +:+ ". "
             +:+ (if Js.truthy relationship
                  then "They were my " +:+ Js.print relationship +:+ "."
                  else "")
             +:+ " Create this as "), ".".
  rewrite !string_app_assoc. reflexivity.
Qed.

(** X16. The answer of the image service is relayed.  For a request that passes
    the checks, with the credential configured: a success gives 200 with the
    image URL and the revised prompt (and the profile's name on the
    loved-one route); a refusal gives the service's own status code with its
    message, or a fixed message when it sent none or an empty one; a failure
    of the call gives 500. *)
Theorem upstream_answer_is_relayed
    (key prompt : string) (service : Outbound → Upstream)
    (profiles : gmap string Profile) (req : WithLovedOne) (p : Profile) :
  key ≠ "" → prompt ≠ "" →
  prompt_of req = Some prompt →
  Js.truthy (lovedOneId_of req) = true →
  profiles !! Profiles.or_empty (lovedOneId_of req) = Some p →
  let plain := {| bearer := key; out_prompt := styledPrompt prompt |} in
  let enriched :=
    {| bearer := key;
       out_prompt := enhancedPrompt prompt (Some (name p))
                       (Some (description p)) (Some (relationship p)) |} in
  let answer (lovedOneName : option string) (reply : Upstream) : Response :=
    match reply with
    | Generated url revised => respond 200 (ImageBody url revised lovedOneName)
    | NotOk code message =>
        respond code (ErrorBody (Js.or_else message "Failed to generate image"))
    | Throws message =>
        respond 500 (ErrorBody ("Internal server error: " +:+ message))
    end in
  post_generate (Some key) service (Some prompt)
  = (answer None (service plain), [plain])
  ∧ post_generate_with_loved_one (Some key) service profiles req
    = (answer (Some (name p)) (service enriched), [enriched]).
Proof.
  intros Hkey Hprompt Hreq Hid Hp plain enriched answer. split.
  - unfold post_generate.
    rewrite (truthy_nonempty _ Hprompt), (truthy_nonempty _ Hkey). simpl.
    unfold call_upstream. fold plain. by destruct (service plain).
  - unfold post_generate_with_loved_one.
    rewrite Hreq, (truthy_nonempty _ Hprompt), Hid, (get_own _ _ _ Hp),
      (truthy_nonempty _ Hkey). simpl.
    unfold call_upstream. fold enriched. by destruct (service enriched).
Qed.
End ForwarderRelay.

Lemma upstream_answer_is_relayed_witness :
  Forwarder.prompt_of Samples.beach_day = Some "beach day"
  ∧ Profiles.lovedOnes Cases.with_mom
      !! Profiles.or_empty (Forwarder.lovedOneId_of Samples.beach_day)
    = Some Samples.mom_profile
  ∧ (Forwarder.post_generate (Some "sk-test") Cases.refusing (Some "beach day")).1
    = respond 429 (ErrorBody "Rate limit exceeded")
  ∧ (Forwarder.post_generate_with_loved_one (Some "sk-test") Cases.refusing
       (Profiles.lovedOnes Cases.with_mom) Samples.beach_day).1
    = respond 429 (ErrorBody "Rate limit exceeded")
  ∧ (Forwarder.post_generate (Some "sk-test") Cases.silent (Some "beach day")).1
    = respond 503 (ErrorBody "Failed to generate image").
Proof.
  split; [reflexivity|]. split; [apply lookup_singleton_eq|].
  destruct (upstream_answer_is_relayed "sk-test" "beach day" Cases.refusing
              (Profiles.lovedOnes Cases.with_mom) Samples.beach_day
              Samples.mom_profile)
    as [Hplain Henriched];
    [discriminate | discriminate | reflexivity | reflexivity
    | apply lookup_singleton_eq |].
  destruct (upstream_answer_is_relayed "sk-test" "beach day" Cases.silent
              (Profiles.lovedOnes Cases.with_mom) Samples.beach_day
              Samples.mom_profile)
    as [Hsilent _];
    [discriminate | discriminate | reflexivity | reflexivity
    | apply lookup_singleton_eq |].
  split; [|split].
  - rewrite Hplain. reflexivity.
  - rewrite Henriched. reflexivity.
  - rewrite Hsilent. reflexivity.
Defined.

(** ** The create route, from the upload to the answer *)

Section CreateRoute.
Import Profiles.

(** The claim C3 fails in two ways.  A request without a name whose file
    the upload filter refuses is answered 500, not 400: the callback and
    its validation are never reached.  And the id a successful create
    allocates need not be new: at the millisecond of an earlier create it
    is that create's id, and the earlier record is replaced. *)
Lemma create_route_counterexample :
  Js.truthy (body_name Samples.nameless) = false
  ∧ status (post_loved_one Samples.clock Samples.nameless [Cases.gif] empty).1 = 500
  ∧ lovedOnes Cases.with_mom !! "1700000000123" = Some Samples.mom_profile
  ∧ ∃ p,
      (post_loved_one Samples.clock Samples.dad [Cases.png] Cases.with_mom).1
      = respond 200 (LovedOneBody p)
      ∧ id p = "1700000000123"
      ∧ name p = "Dad"
      ∧ lovedOnes (post_loved_one Samples.clock Samples.dad [Cases.png]
                     Cases.with_mom).2 !! "1700000000123" = Some p.
Proof.
  split; [reflexivity|]. split; [reflexivity|].
  split; [apply lookup_singleton_eq|].
  pose proof (post_loved_one_accepted Samples.clock Samples.dad [Cases.png]
                Cases.with_mom) as Hrun.
  simpl in Hrun. rewrite Hrun;
    [| reflexivity | reflexivity | discriminate | simpl; lia
     | repeat constructor; vm_compute; congruence].
  eexists. split; [reflexivity|]. simpl.
  split; [reflexivity|]. split; [reflexivity|].
  apply lookup_insert_eq.
Qed.

(** C3, amended.  The upload middleware hands the request to the callback
    when it has at most ten files, each of an allowed type and within the
    size limit; a request it refuses is answered 500 and stores no record.
    Of the requests handed over: one whose name or description is missing
    is answered 400 and stores no record (its files stay on disk); one with
    name and description and no photo is answered 400 and leaves the whole
    state as it was; any other is answered 200 with the record, which is
    stored under the id printed from the clock with the paths of the
    uploaded files as its photos.  That id is new, and the store one record
    larger, exactly when no record is stored under it yet; otherwise the
    record stored under it is replaced. *)
Theorem create_route_validates_then_stores
    (clock : Clock) (body : CreateBody) (files : list Photos.Upload) (st : Store) :
  let handed := length files ≤ 10 ∧ Forall Photos.storable files in
  let paths := Photos.access_path <$> (Photos.filename <$> files) in
  let lovedOne :=
    {| id := pretty (now_ms clock);
       name := or_empty (body_name body);
       description := or_empty (body_description body);
       relationship := or_empty (body_relationship body);
       photos := paths;
       createdAt := now_iso clock |} in
  (¬ handed →
     status (post_loved_one clock body files st).1 = 500
     ∧ lovedOnes (post_loved_one clock body files st).2 = lovedOnes st)
  ∧ (handed →
     Js.truthy (body_name body) = false ∨ Js.truthy (body_description body) = false →
     post_loved_one clock body files st
     = (respond 400 (ErrorBody "Name and description are required"),
        {| lovedOnes := lovedOnes st; uploads := list_to_set paths ∪ uploads st |}))
  ∧ (Js.truthy (body_name body) = true →
     Js.truthy (body_description body) = true →
     files = [] →
     post_loved_one clock body files st
     = (respond 400 (ErrorBody "At least one photo is required"), st))
  ∧ (handed →
     Js.truthy (body_name body) = true →
     Js.truthy (body_description body) = true →
     files ≠ [] →
     post_loved_one clock body files st
     = (respond 200 (LovedOneBody lovedOne),
        {| lovedOnes := <[id lovedOne := lovedOne]> (lovedOnes st);
           uploads := list_to_set paths ∪ uploads st |})
     ∧ Some (name lovedOne) = body_name body
     ∧ Some (description lovedOne) = body_description body
     ∧ lovedOnes (post_loved_one clock body files st).2 !! id lovedOne
       = Some lovedOne
     ∧ (∀ key, key ≠ id lovedOne →
          lovedOnes (post_loved_one clock body files st).2 !! key
          = lovedOnes st !! key)
     ∧ (lovedOnes st !! id lovedOne = None →
        size (lovedOnes (post_loved_one clock body files st).2)
        = S (size (lovedOnes st)))
     ∧ (is_Some (lovedOnes st !! id lovedOne) →
        size (lovedOnes (post_loved_one clock body files st).2)
        = size (lovedOnes st))).
Proof.
  intros handed paths lovedOne. split; [|split; [|split]].
  - intros Hbad. unfold post_loved_one.
    destruct (Photos.upload_array _ _ _) as [[message|names] disk] eqn:Hup; [done|].
    exfalso. apply Hbad.
    apply (store_files_accepts_iff 10 files [] (uploads st)). by eexists _, _.
  - intros [Hlen Hall] Hmissing. unfold post_loved_one, Photos.upload_array.
    rewrite store_files_storable by done. simpl.
    unfold create.
    assert (negb (Js.truthy (body_name body))
            || negb (Js.truthy (body_description body)) = true) as ->.
    { destruct Hmissing as [-> | ->]; [done|]. by rewrite orb_true_r. }
    done.
  - intros Hn Hd ->. unfold post_loved_one, Photos.upload_array. simpl.
    unfold create. rewrite Hn, Hd. simpl.
    destruct st as [profiles disk]. simpl. f_equal; f_equal; set_solver.
  - intros [Hlen Hall] Hn Hd Hne.
    pose proof (post_loved_one_accepted clock body files st Hn Hd Hne Hlen Hall)
      as Hrun.
    simpl in Hrun. rewrite Hrun. simpl.
    split; [done|].
    apply truthy_Some in Hn as (n & Hn & _).
    apply truthy_Some in Hd as (d & Hd & _).
    split; [by rewrite Hn|]. split; [by rewrite Hd|].
    split; [apply lookup_insert_eq|]. split; [|split].
    + intros key Hkey. by rewrite lookup_insert_ne.
    + intros Hfresh. by apply map_size_insert_None.
    + intros Hused. by apply map_size_insert_Some.
Qed.
End CreateRoute.

Lemma create_route_validates_then_stores_witness :
  (length [Samples.img] ≤ 10 ∧ Forall Photos.storable [Samples.img])
  ∧ Js.truthy (Profiles.body_name Samples.nameless) = false
  ∧ Profiles.post_loved_one Samples.clock Samples.nameless [Samples.img]
      Profiles.empty
    = (respond 400 (ErrorBody "Name and description are required"),
       {| Profiles.lovedOnes := ∅;
          Profiles.uploads :=
            list_to_set
              (Photos.access_path <$> (Photos.filename <$> [Samples.img]))
            ∪ ∅ |})
  ∧ Profiles.post_loved_one Samples.clock Samples.mom [] Profiles.empty
    = (respond 400 (ErrorBody "At least one photo is required"), Profiles.empty)
  ∧ size (Profiles.lovedOnes
            (Profiles.post_loved_one Samples.clock Samples.mom [Samples.img]
               Profiles.empty).2) = 1.
Proof.
  assert (length [Samples.img] ≤ 10 ∧ Forall Photos.storable [Samples.img])
    as Hhanded.
  { split; [simpl; lia|]. repeat constructor; vm_compute; congruence. }
  split; [exact Hhanded|]. split; [reflexivity|].
  split; [|split].
  - apply (create_route_validates_then_stores Samples.clock Samples.nameless
             [Samples.img] Profiles.empty); [exact Hhanded|].
    left. reflexivity.
  - apply (create_route_validates_then_stores Samples.clock Samples.mom []
             Profiles.empty); reflexivity.
  - destruct (create_route_validates_then_stores Samples.clock Samples.mom
                [Samples.img] Profiles.empty) as (_ & _ & _ & Hok).
    destruct Hok as (_ & _ & _ & _ & _ & Hnew & _);
      [exact Hhanded | reflexivity | reflexivity | discriminate |].
    rewrite Hnew; [reflexivity|apply lookup_empty].
Defined.

(** A document whose [sessions] is the number 42: an append that passes
    validation is answered by the handler's own catch and the file stays. *)
Lemma post_session_answers_witness :
  ArRuns.validated
    {| ArLog.io_of := ArLog.healthy; ArLog.now_of := "2024-01-01T00:00:00.000Z";
       ArLog.req_of := Some Samples.session |} = true
  ∧ (¬ ∃ sessions,
       ArLog.readARSessions ArLog.healthy (ArLog.NotArray "42")
       = ArLog.Records sessions)
  ∧ (ArLog.post_session ArLog.healthy "2024-01-01T00:00:00.000Z"
       (Some Samples.session) (ArLog.NotArray "42")).1
    = respond 500 (ErrorBody "Internal server error").
Proof.
  assert (¬ ∃ sessions,
            ArLog.readARSessions ArLog.healthy (ArLog.NotArray "42")
            = ArLog.Records sessions) as Hno
    by (intros [sessions Hread]; discriminate Hread).
  split; [reflexivity|]. split; [exact Hno|].
  apply (post_session_answers ArLog.healthy "2024-01-01T00:00:00.000Z"
           (Some Samples.session) (ArLog.NotArray "42")).
  split; [reflexivity|exact Hno].
Defined.
